(** * Head-fixation control panel: host-side protocol and session state

    A shallow embedding of [headfixgui.py]: the command helpers that write
    to the serial port, the trial table with its running totals, and the
    body of the serial reader loop.

    Conventions of the embedding.
    - Python [str] and [bytes] are Rocq strings, one [ascii] per code point
      U+0000..U+00FF; on the ASCII range [str.encode()] and
      [bytes.decode()] are the identity.
    - Python [float] is IEEE binary64, given by [spec_float] with
      [prec = 53] and [emax = 1024]; Python [int] is [Z].
    - A Python exception is a [Raise] result; the mutations done before it
      stay in the state, as they do in Python.
    - Widget texts keep ints rendered and floats symbolic ([Repr],
      [Fixed1]): the shortest-repr algorithm of [str(float)] is not part of
      this program.  The [HH:MM:SS] stamp that [add_console_log] takes from
      the wall clock is left out of the logged message.
    - The file dialog of [save_data_to_file] is taken by its result, the
      chosen path, and the clock by the value it reads; the file written
      is kept as a list of rows.  Window layout and the rescheduling of
      the timer are outside the embedding.
    - The serial port and the file system are taken from the side of the
      program: [ser] lists what [ser.write] was handed, [saved_files]
      lists the writes of [save_data_to_file] in order (a file opened
      with mode [w] replaces an earlier one of the same path), and the
      reader starts from the line that [ser.readline] returned.  A
      [ser.write], [ser.readline] or [open] that fails is outside the
      embedding.
    - [int()] and [str()] are taken without the limit on the number of
      digits that recent interpreters put on them. *)

From Stdlib Require Import ZArith Ascii String List Lia Bool.
From Stdlib Require Import Floats.SpecFloat DecimalString.
From stdpp Require Import base option list gmap strings.

Local Open Scope string_scope.
Local Open Scope list_scope.
Local Open Scope stdpp_scope.
Local Open Scope Z_scope.

(** ** Python values *)

Definition prec : Z := 53.
Definition emax : Z := 1024.

Abbreviation float := spec_float.

Inductive exn := ValueError | OverflowError | KeyError | IndexError.

Inductive res (A : Type) : Type :=
| Ok (a : A)
| Raise (e : exn).
Arguments Ok {A} a.
Arguments Raise {A} e.

Definition res_bind {A B} (r : res A) (k : A -> res B) : res B :=
  match r with
  | Ok a => k a
  | Raise e => Raise e
  end.

Inductive pyval :=
| PyInt (z : Z)
| PyFloat (f : float).

(** [float(n)] for an int [n]: nearest-even, [OverflowError] when the
    rounded value is not finite. *)
Definition float_of_int (z : Z) : res float :=
  match binary_normalize prec emax z 0 false with
  | S754_infinity _ => Raise OverflowError
  | f => Ok f
  end.

Definition fadd : float -> float -> float := SFadd prec emax.
Definition fmul : float -> float -> float := SFmul prec emax.

(** [a + b] on the values this program adds: ints and floats. *)
Definition py_add (a b : pyval) : res pyval :=
  match a, b with
  | PyInt x, PyInt y => Ok (PyInt (x + y))
  | PyFloat x, PyFloat y => Ok (PyFloat (fadd x y))
  | PyInt x, PyFloat y => res_bind (float_of_int x) (fun fx => Ok (PyFloat (fadd fx y)))
  | PyFloat x, PyInt y => res_bind (float_of_int y) (fun fy => Ok (PyFloat (fadd x fy)))
  end.

(** [val * multiplier] with a float [val] and an int [multiplier]. *)
Definition fmul_int (v : float) (k : Z) : res float :=
  res_bind (float_of_int k) (fun fk => Ok (fmul v fk)).

(** [int(x)] for a float: truncation toward zero; infinities raise
    [OverflowError] and NaN raises [ValueError]. *)
Definition int_of_float (x : float) : res Z :=
  match x with
  | S754_zero _ => Ok 0
  | S754_infinity _ => Raise OverflowError
  | S754_nan => Raise ValueError
  | S754_finite s m e =>
      let mag := match e with
                 | Z0 => Z.pos m
                 | Z.pos _ => Z.pos m * 2 ^ e
                 | Z.neg _ => Z.pos m / 2 ^ (- e)
                 end in
      Ok (if s then - mag else mag)
  end.

(** The line feed that ends a command. *)
Definition newline : string := String "010" EmptyString.

(** [str(n)] for an int. *)
Definition str_int (z : Z) : string := NilZero.string_of_int (Z.to_int z).

(** ** Characters and strings *)

Definition code (c : ascii) : N := N_of_ascii c.

Definition is_digit (c : ascii) : bool :=
  ((48 <=? code c) && (code c <=? 57))%N.

Definition digit_val (c : ascii) : Z := Z.of_N (code c) - 48.

(** [str.isspace] on U+0000..U+00FF, the set [str.strip()] removes. *)
Definition is_space (c : ascii) : bool :=
  (((9 <=? code c) && (code c <=? 13)) || ((28 <=? code c) && (code c <=? 32))
   || (code c =? 133) || (code c =? 160))%N.

(** The white space [int()] and [float()] skip at both ends: the ASCII
    set of C, and the two Latin-1 spaces that are first turned into a
    blank. *)
Definition is_num_space (c : ascii) : bool :=
  (((9 <=? code c) && (code c <=? 13)) || (code c =? 32)
   || (code c =? 133) || (code c =? 160))%N.

Definition is_empty (s : string) : bool :=
  match s with
  | EmptyString => true
  | String _ _ => false
  end.

Fixpoint lstrip_by (sp : ascii -> bool) (s : string) : string :=
  match s with
  | EmptyString => EmptyString
  | String c t => if sp c then lstrip_by sp t else s
  end.

Fixpoint rstrip_by (sp : ascii -> bool) (s : string) : string :=
  match s with
  | EmptyString => EmptyString
  | String c t =>
      let t' := rstrip_by sp t in
      if sp c && is_empty t' then EmptyString else String c t'
  end.

Definition strip_by (sp : ascii -> bool) (s : string) : string :=
  rstrip_by sp (lstrip_by sp s).

(** [s.strip()] *)
Definition strip : string -> string := strip_by is_space.

(** [s.startswith(p)] *)
Definition startswith (p s : string) : bool := String.prefix p s.

(** [sub in s] *)
Fixpoint contains (sub s : string) : bool :=
  String.prefix sub s ||
  match s with
  | EmptyString => false
  | String _ t => contains sub t
  end.

(** [s.split(sep)] for a one-character separator. *)
Fixpoint split (sep : ascii) (s : string) : list string :=
  match s with
  | EmptyString => [EmptyString]
  | String c t =>
      if Ascii.eqb c sep then EmptyString :: split sep t
      else match split sep t with
           | h :: r => String c h :: r
           | [] => [String c EmptyString]
           end
  end.

(** ** [int(s)] and [float(s)] on strings *)

Definition lower (c : ascii) : ascii :=
  if ((65 <=? code c) && (code c <=? 90))%N then ascii_of_N (code c + 32) else c.

(** Every underscore stands between two digits. *)
Fixpoint underscores_ok (prev : ascii) (s : string) : bool :=
  match s with
  | EmptyString => negb (Ascii.eqb prev "_")
  | String c t =>
      (if Ascii.eqb c "_" then is_digit prev
       else if Ascii.eqb prev "_" then is_digit c else true)
      && underscores_ok c t
  end.

Fixpoint drop_underscores (s : string) : string :=
  match s with
  | EmptyString => EmptyString
  | String c t =>
      if Ascii.eqb c "_" then drop_underscores t else String c (drop_underscores t)
  end.

(** Reads a run of digits: the number read so far, how many digits were
    read, and what follows them. *)
Fixpoint scan_digits (acc : Z) (n : nat) (s : string) : Z * nat * string :=
  match s with
  | EmptyString => (acc, n, s)
  | String c t =>
      if is_digit c then scan_digits (10 * acc + digit_val c) (S n) t
      else (acc, n, s)
  end.

Definition scan_sign (s : string) : bool * string :=
  match s with
  | String c t =>
      if Ascii.eqb c "-" then (true, t)
      else if Ascii.eqb c "+" then (false, t)
      else (false, s)
  | EmptyString => (false, s)
  end.

(** Digits that are followed by nothing else. *)
Definition all_digits (s : string) : option Z :=
  match scan_digits 0 0 s with
  | (v, S _, EmptyString) => Some v
  | _ => None
  end.

Definition py_int (s : string) : res Z :=
  let s1 := strip_by is_num_space s in
  let '(neg, body) := scan_sign s1 in
  if underscores_ok " " body then
    match all_digits (drop_underscores body) with
    | Some v => Ok (if neg then - v else v)
    | None => Raise ValueError
    end
  else Raise ValueError.

(** The binary64 nearest (ties to even) to [m * 10 ^ e10], [m >= 0]. *)
Definition float_of_decimal (neg : bool) (m e10 : Z) : float :=
  match m with
  | Z.pos p =>
      match e10 with
      | Z.neg _ =>
          let '(q, e, l) := SFdiv_core_binary prec emax m 0 (10 ^ (- e10)) 0 in
          binary_round_aux prec emax neg q e l
      | _ => binary_round prec emax neg (Z.to_pos (m * 10 ^ e10)) 0
      end
  | _ => S754_zero neg
  end.

(** The exponent part: [e] or [E], a sign, at least one digit.  When it
    is not complete nothing of it is read. *)
Definition scan_exponent (s : string) : Z * string :=
  match s with
  | String c t =>
      if Ascii.eqb (lower c) "e" then
        let '(neg, t1) := scan_sign t in
        match scan_digits 0 0 t1 with
        | (_, O, _) => (0, s)
        | (v, S _, r) => (if neg then - v else v, r)
        end
      else (0, s)
  | EmptyString => (0, s)
  end.

(** A decimal number at the head of [s]: sign, digits, point, digits,
    exponent; [None] when there is no digit. *)
Definition scan_number (s : string) : option (float * string) :=
  let '(neg, s1) := scan_sign s in
  let '(ip, ni, s2) := scan_digits 0 0 s1 in
  let '(m, nf, s3) := match s2 with
                      | String c t =>
                          if Ascii.eqb c "." then scan_digits ip 0 t else (ip, O, s2)
                      | EmptyString => (ip, O, s2)
                      end in
  match (ni + nf)%nat with
  | O => None
  | S _ =>
      let '(ex, s4) := scan_exponent s3 in
      Some (float_of_decimal neg m (ex - Z.of_nat nf), s4)
  end.

Fixpoint map_lower (s : string) : string :=
  match s with
  | EmptyString => EmptyString
  | String c t => String (lower c) (map_lower t)
  end.

(** [inf], [infinity] and [nan] in any case, with a sign. *)
Definition scan_inf_nan (s : string) : option float :=
  let '(neg, s1) := scan_sign s in
  let w := map_lower s1 in
  if (String.eqb w "inf" || String.eqb w "infinity")%string then Some (S754_infinity neg)
  else if String.eqb w "nan" then Some S754_nan
  else None.

Definition py_float (s : string) : res float :=
  let s1 := strip_by is_num_space s in
  if underscores_ok " " s1 then
    let s2 := drop_underscores s1 in
    match scan_number s2 with
    | Some (f, EmptyString) => Ok f
    | Some (_, String _ _) => Raise ValueError
    | None =>
        match scan_inf_nan s2 with
        | Some f => Ok f
        | None => Raise ValueError
        end
    end
  else Raise ValueError.

(** ** Widget texts *)

Inductive atom :=
| Lit (s : string)          (* literal characters *)
| Repr (f : float)          (* [str(f)] of a float *)
| Fixed1 (f : float).       (* [f"{f:.1f}"] *)

Definition text := list atom.

(** [str(val)] *)
Definition py_str (v : pyval) : text :=
  match v with
  | PyInt z => [Lit (str_int z)]
  | PyFloat f => [Repr f]
  end.

(** [f"{val:.1f}"]: an int is first converted to a float. *)
Definition fixed1 (v : pyval) : res text :=
  match v with
  | PyInt z => res_bind (float_of_int z) (fun f => Ok [Fixed1 f])
  | PyFloat f => Ok [Fixed1 f]
  end.

Record label := { label_text : text; label_fg : string }.

(** A spout button together with its one-element state list. *)
Record spout_btn := { pressed : bool; btn_bg : string }.

Inductive axis := Forward | Backward | Upward | Downward.

(** ** The module state: globals and widgets *)

Record gui := {
  ser : list string;                    (* what [ser.write] was given, in order *)
  console_box : list text;
  flush_active : bool;
  free_reward_enabled : bool;
  habituation_enabled : bool;
  totals : gmap string pyval;
  session_start_time : option float;
  timer_running : bool;
  table_labels : list (list text);
  fixation_label : label;
  struggle_label : label;
  session_timer_label : string;
  flush_button : string;
  forward_btn : spout_btn;
  backward_btn : spout_btn;
  upward_btn : spout_btn;
  downward_btn : spout_btn;
  threshold_entry : string;
  fix_duration_entry : string;
  fix_delay_entry : string;
  escape_buffer_entry : string;
  reward_buffer_entry : string;
  rat_name_entry : string;
  saved_files : list (string * list (list text))   (* the writes of files, in order *)
}.

Definition set_ser v st :=
  {| ser := v; console_box := console_box st; flush_active := flush_active st;
     free_reward_enabled := free_reward_enabled st;
     habituation_enabled := habituation_enabled st; totals := totals st;
     session_start_time := session_start_time st; timer_running := timer_running st;
     table_labels := table_labels st; fixation_label := fixation_label st;
     struggle_label := struggle_label st; session_timer_label := session_timer_label st;
     flush_button := flush_button st; forward_btn := forward_btn st;
     backward_btn := backward_btn st; upward_btn := upward_btn st;
     downward_btn := downward_btn st; threshold_entry := threshold_entry st;
     fix_duration_entry := fix_duration_entry st; fix_delay_entry := fix_delay_entry st;
     escape_buffer_entry := escape_buffer_entry st;
     reward_buffer_entry := reward_buffer_entry st; rat_name_entry := rat_name_entry st;
     saved_files := saved_files st |}.

Definition set_console_box v st :=
  {| ser := ser st; console_box := v; flush_active := flush_active st;
     free_reward_enabled := free_reward_enabled st;
     habituation_enabled := habituation_enabled st; totals := totals st;
     session_start_time := session_start_time st; timer_running := timer_running st;
     table_labels := table_labels st; fixation_label := fixation_label st;
     struggle_label := struggle_label st; session_timer_label := session_timer_label st;
     flush_button := flush_button st; forward_btn := forward_btn st;
     backward_btn := backward_btn st; upward_btn := upward_btn st;
     downward_btn := downward_btn st; threshold_entry := threshold_entry st;
     fix_duration_entry := fix_duration_entry st; fix_delay_entry := fix_delay_entry st;
     escape_buffer_entry := escape_buffer_entry st;
     reward_buffer_entry := reward_buffer_entry st; rat_name_entry := rat_name_entry st;
     saved_files := saved_files st |}.

Definition set_flags fa fr ha st :=
  {| ser := ser st; console_box := console_box st; flush_active := fa;
     free_reward_enabled := fr; habituation_enabled := ha; totals := totals st;
     session_start_time := session_start_time st; timer_running := timer_running st;
     table_labels := table_labels st; fixation_label := fixation_label st;
     struggle_label := struggle_label st; session_timer_label := session_timer_label st;
     flush_button := flush_button st; forward_btn := forward_btn st;
     backward_btn := backward_btn st; upward_btn := upward_btn st;
     downward_btn := downward_btn st; threshold_entry := threshold_entry st;
     fix_duration_entry := fix_duration_entry st; fix_delay_entry := fix_delay_entry st;
     escape_buffer_entry := escape_buffer_entry st;
     reward_buffer_entry := reward_buffer_entry st; rat_name_entry := rat_name_entry st;
     saved_files := saved_files st |}.

Definition set_totals v st :=
  {| ser := ser st; console_box := console_box st; flush_active := flush_active st;
     free_reward_enabled := free_reward_enabled st;
     habituation_enabled := habituation_enabled st; totals := v;
     session_start_time := session_start_time st; timer_running := timer_running st;
     table_labels := table_labels st; fixation_label := fixation_label st;
     struggle_label := struggle_label st; session_timer_label := session_timer_label st;
     flush_button := flush_button st; forward_btn := forward_btn st;
     backward_btn := backward_btn st; upward_btn := upward_btn st;
     downward_btn := downward_btn st; threshold_entry := threshold_entry st;
     fix_duration_entry := fix_duration_entry st; fix_delay_entry := fix_delay_entry st;
     escape_buffer_entry := escape_buffer_entry st;
     reward_buffer_entry := reward_buffer_entry st; rat_name_entry := rat_name_entry st;
     saved_files := saved_files st |}.

Definition set_session t r st :=
  {| ser := ser st; console_box := console_box st; flush_active := flush_active st;
     free_reward_enabled := free_reward_enabled st;
     habituation_enabled := habituation_enabled st; totals := totals st;
     session_start_time := t; timer_running := r;
     table_labels := table_labels st; fixation_label := fixation_label st;
     struggle_label := struggle_label st; session_timer_label := session_timer_label st;
     flush_button := flush_button st; forward_btn := forward_btn st;
     backward_btn := backward_btn st; upward_btn := upward_btn st;
     downward_btn := downward_btn st; threshold_entry := threshold_entry st;
     fix_duration_entry := fix_duration_entry st; fix_delay_entry := fix_delay_entry st;
     escape_buffer_entry := escape_buffer_entry st;
     reward_buffer_entry := reward_buffer_entry st; rat_name_entry := rat_name_entry st;
     saved_files := saved_files st |}.

Definition set_table_labels v st :=
  {| ser := ser st; console_box := console_box st; flush_active := flush_active st;
     free_reward_enabled := free_reward_enabled st;
     habituation_enabled := habituation_enabled st; totals := totals st;
     session_start_time := session_start_time st; timer_running := timer_running st;
     table_labels := v; fixation_label := fixation_label st;
     struggle_label := struggle_label st; session_timer_label := session_timer_label st;
     flush_button := flush_button st; forward_btn := forward_btn st;
     backward_btn := backward_btn st; upward_btn := upward_btn st;
     downward_btn := downward_btn st; threshold_entry := threshold_entry st;
     fix_duration_entry := fix_duration_entry st; fix_delay_entry := fix_delay_entry st;
     escape_buffer_entry := escape_buffer_entry st;
     reward_buffer_entry := reward_buffer_entry st; rat_name_entry := rat_name_entry st;
     saved_files := saved_files st |}.

(** The two status labels, the timer label and the flush button. *)
Definition set_status fl sl tl fb st :=
  {| ser := ser st; console_box := console_box st; flush_active := flush_active st;
     free_reward_enabled := free_reward_enabled st;
     habituation_enabled := habituation_enabled st; totals := totals st;
     session_start_time := session_start_time st; timer_running := timer_running st;
     table_labels := table_labels st; fixation_label := fl;
     struggle_label := sl; session_timer_label := tl;
     flush_button := fb; forward_btn := forward_btn st;
     backward_btn := backward_btn st; upward_btn := upward_btn st;
     downward_btn := downward_btn st; threshold_entry := threshold_entry st;
     fix_duration_entry := fix_duration_entry st; fix_delay_entry := fix_delay_entry st;
     escape_buffer_entry := escape_buffer_entry st;
     reward_buffer_entry := reward_buffer_entry st; rat_name_entry := rat_name_entry st;
     saved_files := saved_files st |}.

Definition set_fixation_label v st :=
  set_status v (struggle_label st) (session_timer_label st) (flush_button st) st.
Definition set_struggle_label v st :=
  set_status (fixation_label st) v (session_timer_label st) (flush_button st) st.
Definition set_session_timer_label v st :=
  set_status (fixation_label st) (struggle_label st) v (flush_button st) st.
Definition set_flush_button v st :=
  set_status (fixation_label st) (struggle_label st) (session_timer_label st) v st.

Definition set_spout f b u d st :=
  {| ser := ser st; console_box := console_box st; flush_active := flush_active st;
     free_reward_enabled := free_reward_enabled st;
     habituation_enabled := habituation_enabled st; totals := totals st;
     session_start_time := session_start_time st; timer_running := timer_running st;
     table_labels := table_labels st; fixation_label := fixation_label st;
     struggle_label := struggle_label st; session_timer_label := session_timer_label st;
     flush_button := flush_button st; forward_btn := f;
     backward_btn := b; upward_btn := u;
     downward_btn := d; threshold_entry := threshold_entry st;
     fix_duration_entry := fix_duration_entry st; fix_delay_entry := fix_delay_entry st;
     escape_buffer_entry := escape_buffer_entry st;
     reward_buffer_entry := reward_buffer_entry st; rat_name_entry := rat_name_entry st;
     saved_files := saved_files st |}.

Definition set_saved_files v st :=
  {| ser := ser st; console_box := console_box st; flush_active := flush_active st;
     free_reward_enabled := free_reward_enabled st;
     habituation_enabled := habituation_enabled st; totals := totals st;
     session_start_time := session_start_time st; timer_running := timer_running st;
     table_labels := table_labels st; fixation_label := fixation_label st;
     struggle_label := struggle_label st; session_timer_label := session_timer_label st;
     flush_button := flush_button st; forward_btn := forward_btn st;
     backward_btn := backward_btn st; upward_btn := upward_btn st;
     downward_btn := downward_btn st; threshold_entry := threshold_entry st;
     fix_duration_entry := fix_duration_entry st; fix_delay_entry := fix_delay_entry st;
     escape_buffer_entry := escape_buffer_entry st;
     reward_buffer_entry := reward_buffer_entry st; rat_name_entry := rat_name_entry st;
     saved_files := v |}.

(** What the operator types into the entry boxes. *)
Definition set_entries th du de es re rn st :=
  {| ser := ser st; console_box := console_box st; flush_active := flush_active st;
     free_reward_enabled := free_reward_enabled st;
     habituation_enabled := habituation_enabled st; totals := totals st;
     session_start_time := session_start_time st; timer_running := timer_running st;
     table_labels := table_labels st; fixation_label := fixation_label st;
     struggle_label := struggle_label st; session_timer_label := session_timer_label st;
     flush_button := flush_button st; forward_btn := forward_btn st;
     backward_btn := backward_btn st; upward_btn := upward_btn st;
     downward_btn := downward_btn st; threshold_entry := th;
     fix_duration_entry := du; fix_delay_entry := de;
     escape_buffer_entry := es;
     reward_buffer_entry := re; rat_name_entry := rn;
     saved_files := saved_files st |}.

Definition get_btn (a : axis) (st : gui) : spout_btn :=
  match a with
  | Forward => forward_btn st
  | Backward => backward_btn st
  | Upward => upward_btn st
  | Downward => downward_btn st
  end.

Definition set_btn (a : axis) (b : spout_btn) (st : gui) : gui :=
  match a with
  | Forward => set_spout b (backward_btn st) (upward_btn st) (downward_btn st) st
  | Backward => set_spout (forward_btn st) b (upward_btn st) (downward_btn st) st
  | Upward => set_spout (forward_btn st) (backward_btn st) b (downward_btn st) st
  | Downward => set_spout (forward_btn st) (backward_btn st) (upward_btn st) b st
  end.

(** ** Statements: a state that survives exceptions *)

#[global] Instance res_ret : MRet res := fun A a => Ok a.
#[global] Instance res_mbind : MBind res := fun A B k r => res_bind r k.

Definition M (A : Type) : Type := gui -> res A * gui.

#[global] Instance M_ret : MRet M := fun A a st => (Ok a, st).
#[global] Instance M_bind : MBind M := fun A B k m st =>
  match m st with
  | (Ok a, st') => k a st'
  | (Raise e, st') => (Raise e, st')
  end.

Definition raise {A} (e : exn) : M A := fun st => (Raise e, st).
Definition lift {A} (r : res A) : M A := fun st => (r, st).
Definition gets {A} (f : gui -> A) : M A := fun st => (Ok (f st), st).
Definition modify (f : gui -> gui) : M unit := fun st => (Ok tt, f st).

(** [try: body  except E: handler] *)
Definition try_except (body : M unit) (E : exn -> bool) (handler : M unit) : M unit :=
  fun st =>
    match body st with
    | (Raise e, st') => if E e then handler st' else (Raise e, st')
    | r => r
    end.

Definition is_ValueError (e : exn) : bool :=
  match e with
  | ValueError => true
  | _ => false
  end.

Fixpoint for_each {A} (l : list A) (body : A -> M unit) : M unit :=
  match l with
  | [] => mret tt
  | x :: r => body x;; for_each r body
  end.

(** [l[i]] *)
Definition item {A} (l : list A) (i : nat) : res A :=
  match l !! i with
  | Some x => Ok x
  | None => Raise IndexError
  end.

(** ** The functions of [headfixgui.py] *)

Definition ser_write (b : string) : M unit :=
  modify (fun st => set_ser (ser st ++ [b]) st).

Definition add_console_log (msg : text) : M unit :=
  modify (fun st => set_console_box (console_box st ++ [msg]) st).

Definition toggle_flush : M unit :=
  modify (fun st => set_flags (negb (flush_active st)) (free_reward_enabled st)
                      (habituation_enabled st) st);;
  fa ← gets flush_active;
  modify (set_flush_button (if (fa : bool) then "Stop Flushing" else "Flush Water"));;
  ser_write (if (fa : bool) then "W" else "w");;
  add_console_log [Lit ("Flush toggled: " +:+ (if (fa : bool) then "ON" else "OFF"))].

Definition toggle_free_reward : M unit :=
  modify (fun st => set_flags (flush_active st) (negb (free_reward_enabled st))
                      (habituation_enabled st) st);;
  fr ← gets free_reward_enabled;
  ser_write (if (fr : bool) then "M1" else "M0");;
  add_console_log [Lit ("Free reward " +:+ (if (fr : bool) then "ENABLED" else "DISABLED"))].

Definition toggle_habituation : M unit :=
  modify (fun st => set_flags (flush_active st) (free_reward_enabled st)
                      (negb (habituation_enabled st)) st);;
  ha ← gets habituation_enabled;
  ser_write (if (ha : bool) then "H1" else "H0");;
  add_console_log [Lit ("Habituation Mode " +:+ (if (ha : bool) then "ENABLED" else "DISABLED"))].

(** The axis stands for the pair [button], [state_var] the callers pass. *)
Definition toggle_button (a : axis) (command_on command_off label : string) : M unit :=
  modify (fun st => set_btn a {| pressed := negb (pressed (get_btn a st));
                                 btn_bg := btn_bg (get_btn a st) |} st);;
  p ← gets (fun st => pressed (get_btn a st));
  ser_write (if (p : bool) then command_on else command_off);;
  modify (fun st => set_btn a {| pressed := p;
                                 btn_bg := if (p : bool) then "#4CAF50" else "#e0e0e0" |} st);;
  add_console_log [Lit (label +:+ " " +:+ (if (p : bool) then "START" else "STOP"))].

Definition send_value (entry : gui -> string) (command label : string)
    (multiplier : Z) : M unit :=
  try_except
    (s ← gets entry;
     val ← lift (py_float s);
     let cmd := command in
     scaled ← lift (fmul_int val multiplier);
     n ← lift (int_of_float scaled);
     ser_write (cmd +:+ str_int n +:+ newline);;
     add_console_log [Lit (label +:+ " set to "); Repr val])
    is_ValueError
    (add_console_log [Lit ("Invalid input for " +:+ label)]).

Definition send_threshold : M unit :=
  send_value threshold_entry "T" "Struggle Threshold" 1.
Definition send_fix_duration : M unit :=
  send_value fix_duration_entry "X" "Fix Duration" 1000.
Definition send_fix_delay : M unit :=
  send_value fix_delay_entry "Y" "Fix Delay" 1000.
Definition send_escape_buffer : M unit :=
  send_value escape_buffer_entry "Z" "Escape Buffer" 1.
Definition send_reward_buffer : M unit :=
  send_value reward_buffer_entry "Q" "Reward Buffer" 1.

(** [table_labels[r][c].config(text=t)] *)
Definition config_table (r c : nat) (t : text) : M unit :=
  rows ← gets table_labels;
  row ← lift (item rows r);
  _ ← lift (item row c);
  modify (set_table_labels (<[r := <[c := t]> row]> rows)).

(** [table_labels[r][c].cget("text")] *)
Definition cget_table (r c : nat) : M text :=
  rows ← gets table_labels;
  row ← lift (item rows r);
  lift (item row c).

(** [totals[k]] *)
Definition totals_get (k : string) : M pyval :=
  t ← gets totals;
  match (t : gmap string pyval) !! k with
  | Some v => mret v
  | None => raise KeyError
  end.

(** [totals[k] += v] *)
Definition totals_iadd (k : string) (v : pyval) : M unit :=
  old ← totals_get k;
  new ← lift (py_add old v);
  modify (fun st => set_totals (<[k := new]> (totals st)) st).

Definition update_table (event_data : list pyval) : M unit :=
  match event_data with
  | [duration; fix_; escape; timeup; struggle; reward] =>
      for_each (imap pair event_data)
        (fun iv => config_table 2 (fst iv) (py_str (snd iv)));;
      totals_iadd "time" duration;;
      totals_iadd "fix" fix_;;
      totals_iadd "escape" escape;;
      totals_iadd "timeup" timeup;;
      totals_iadd "struggle" struggle;;
      totals_iadd "reward" reward;;
      t ← totals_get "time"; f ← lift (fixed1 t); config_table 1 0 f;;
      v ← totals_get "fix"; config_table 1 1 (py_str v);;
      v ← totals_get "escape"; config_table 1 2 (py_str v);;
      v ← totals_get "timeup"; config_table 1 3 (py_str v);;
      v ← totals_get "struggle"; config_table 1 4 (py_str v);;
      v ← totals_get "reward"; config_table 1 5 (py_str v)
  | _ => raise ValueError
  end.

Definition columns : list string :=
  ["Time(s)"; "Fix"; "Escape"; "TimeUp"; "Struggle"; "Reward"].

Definition save_data_to_file (file_path : string) : M unit :=
  if is_empty file_path then mret tt
  else
    c0 ← cget_table 1 0; c1 ← cget_table 1 1; c2 ← cget_table 1 2;
    c3 ← cget_table 1 3; c4 ← cget_table 1 4; c5 ← cget_table 1 5;
    modify (fun st => set_saved_files
       (saved_files st ++ [(file_path, [map (fun s => [Lit s]) columns;
                                         [c0; c1; c2; c3; c4; c5]])]) st);;
    add_console_log [Lit ("Data saved to " +:+ file_path)].

Definition fsub : float -> float -> float := SFsub prec emax.

(** [f"{n:02}"] *)
Definition pad2 (n : Z) : string :=
  if (0 <=? n) && (n <? 10) then "0" +:+ str_int n else str_int n.

(** Truth value of [session_start_time]. *)
Definition truthy (t : option float) : bool :=
  match t with
  | None => false
  | Some (S754_zero _) => false
  | Some _ => true
  end.

(** One run of [update_session_timer] when the clock reads [now]. *)
Definition update_session_timer (now : float) : M unit :=
  t ← gets session_start_time;
  r ← gets timer_running;
  match (t : option float) with
  | Some start =>
      if truthy t && (r : bool) then
        elapsed ← lift (int_of_float (fsub now start));
        let hours := elapsed `div` 3600 in
        let minutes := (elapsed `mod` 3600) `div` 60 in
        let seconds := elapsed `mod` 60 in
        modify (set_session_timer_label
                  ("Session Time: " +:+ pad2 hours +:+ ":" +:+ pad2 minutes
                   +:+ ":" +:+ pad2 seconds))
      else mret tt
  | None => mret tt
  end.

(** The list that the reader builds from the seven fields. *)
Definition event_data_of (parts : list string) : res (list pyval) :=
  p1 ← item parts 1; f1 ← py_float p1;
  p2 ← item parts 2; n2 ← py_int p2;
  p3 ← item parts 3; n3 ← py_int p3;
  p4 ← item parts 4; n4 ← py_int p4;
  p5 ← item parts 5; n5 ← py_int p5;
  p6 ← item parts 6; n6 ← py_int p6;
  mret [PyFloat f1; PyInt n2; PyInt n3; PyInt n4; PyInt n5; PyInt n6].

Definition mk_label (t fg : string) : label :=
  {| label_text := [Lit t]; label_fg := fg |}.

(** The status checks of the reader, lines 158 to 178. *)
Definition status_checks (line : string) : M unit :=
  (if contains "Fixation Engaged" line then
     modify (set_fixation_label (mk_label "Fixation: ACTIVE" "green"));;
     add_console_log [Lit "Fixation Engaged"]
   else if contains "Fixation Released" line then
     modify (set_fixation_label (mk_label "Fixation: INACTIVE" "red"));;
     add_console_log [Lit "Fixation Released"]
   else if contains "Escape Event" line then
     modify (set_fixation_label (mk_label "Fixation: ESCAPE" "yellow"));;
     add_console_log [Lit "Escape Event"]
   else if contains "Time-Up Release" line then
     modify (set_fixation_label (mk_label "Fixation: TIME UP" "purple"));;
     add_console_log [Lit "Time-Up Release"]
   else mret tt);;
  (if contains "Struggle YES" line then
     modify (set_struggle_label (mk_label "Struggle: YES" "red"));;
     add_console_log [Lit "Struggle Detected - Released"]
   else if contains "Struggle NO" line then
     modify (set_struggle_label (mk_label "Struggle: NO" "gray"))
   else mret tt);;
  (if contains "Reward Given" line then add_console_log [Lit "Reward Given"]
   else mret tt).

(** The body of the [try] in [update_serial], for the text [raw] that
    [ser.readline().decode('utf-8', errors='ignore')] returned. *)
Definition update_serial_body (raw : string) : M unit :=
  let line := strip raw in
  if is_empty line then mret tt
  else
    (if startswith "EVENT," line then
       let parts := split "," line in
       if (length parts =? 7)%nat then
         event_data ← lift (event_data_of parts);
         update_table event_data
       else mret tt
     else mret tt);;
    status_checks line.

(** One turn of the [while True] loop: [except: pass] drops the
    exception and keeps the state. *)
Definition update_serial (raw : string) (st : gui) : gui :=
  snd (update_serial_body raw st).

Definition start_session (now : float) : M unit :=
  modify (set_session (Some now) true);;
  ser_write "b";;
  rat ← gets rat_name_entry;
  add_console_log [Lit ("Session Started for " +:+ rat)].

Definition stop_session : M unit :=
  modify (fun st => set_session (session_start_time st) false st);;
  ser_write "c";;
  add_console_log [Lit "Session Stopped"].

Definition reset_table : M unit :=
  for_each (seq 1 2)
    (fun r => for_each (seq 0 (length columns))
                (fun c => config_table r c [Lit "0"]));;
  modify (fun st => set_totals ((fun _ => PyInt 0) <$> totals st) st).

Definition send_level (level : Z) : M unit :=
  ser_write ("L" +:+ str_int level +:+ newline);;
  add_console_log [Lit ("Actuator Level " +:+ str_int level +:+ " Selected")].

(** The [lambda] commands of the emergency and clear buttons. *)
Definition emergency_release : M unit := ser_write "j".

Definition clear_table : M unit :=
  reset_table;; add_console_log [Lit "Data Table Cleared"].

(** The state once the module has been loaded, before [mainloop]. *)
Definition init_gui : gui :=
  {| ser := [];
     console_box := [];
     flush_active := false;
     free_reward_enabled := true;
     habituation_enabled := false;
     totals := <["time" := PyInt 0]> (<["fix" := PyInt 0]> (<["escape" := PyInt 0]>
               (<["timeup" := PyInt 0]> (<["struggle" := PyInt 0]>
               (<["reward" := PyInt 0]> ∅)))));
     session_start_time := None;
     timer_running := false;
     table_labels := [map (fun s => [Lit s]) columns;
                      replicate 6 [Lit "0"]; replicate 6 [Lit "0"]];
     fixation_label := mk_label "Fixation: INACTIVE" "red";
     struggle_label := mk_label "Struggle: NO" "gray";
     session_timer_label := "Session Time: 00:00:00";
     flush_button := "Flush Water";
     forward_btn := {| pressed := false; btn_bg := "#e0e0e0" |};
     backward_btn := {| pressed := false; btn_bg := "#e0e0e0" |};
     upward_btn := {| pressed := false; btn_bg := "#e0e0e0" |};
     downward_btn := {| pressed := false; btn_bg := "#e0e0e0" |};
     threshold_entry := "350.0";
     fix_duration_entry := "7";
     fix_delay_entry := "1";
     escape_buffer_entry := "500";
     reward_buffer_entry := "1000";
     rat_name_entry := "Rat 1";
     saved_files := [] |}.

(** ** Everything that can happen to the state *)

Inductive entry_box :=
| ThresholdEntry | FixDurationEntry | FixDelayEntry
| EscapeBufferEntry | RewardBufferEntry | RatNameEntry.

(** The operator replaces the content of an entry box. *)
Definition type_entry (e : entry_box) (s : string) (st : gui) : gui :=
  let th := threshold_entry st in
  let du := fix_duration_entry st in
  let de := fix_delay_entry st in
  let es := escape_buffer_entry st in
  let re := reward_buffer_entry st in
  let rn := rat_name_entry st in
  match e with
  | ThresholdEntry => set_entries s du de es re rn st
  | FixDurationEntry => set_entries th s de es re rn st
  | FixDelayEntry => set_entries th du s es re rn st
  | EscapeBufferEntry => set_entries th du de s re rn st
  | RewardBufferEntry => set_entries th du de es s rn st
  | RatNameEntry => set_entries th du de es re s st
  end.

Inductive action :=
| SerialLine (raw : string)          (* the reader thread got a line *)
| TypeEntry (e : entry_box) (s : string)
| FlushButton
| FreeRewardCheck
| HabituationCheck
| SpoutButton (a : axis)
| SetThreshold | SetFixDuration | SetFixDelay | SetEscapeBuffer | SetRewardBuffer
| StartButton (now : float)
| StopButton
| SaveButton (file_path : string)
| ClearButton
| EmergencyButton
| LevelButton (i : Z)
| TimerTick (now : float).

(** Tk reports an exception of a callback and goes on with the state as
    the callback left it. *)
Definition callback (m : M unit) (st : gui) : gui := snd (m st).

Definition spout_command (a : axis) : M unit :=
  match a with
  | Forward => toggle_button Forward "F" "S" "Forward"
  | Backward => toggle_button Backward "B" "S" "Backward"
  | Upward => toggle_button Upward "U" "S" "Upward"
  | Downward => toggle_button Downward "D" "S" "Downward"
  end.

Definition step (a : action) (st : gui) : gui :=
  match a with
  | SerialLine raw => update_serial raw st
  | TypeEntry e s => type_entry e s st
  | FlushButton => callback toggle_flush st
  | FreeRewardCheck => callback toggle_free_reward st
  | HabituationCheck => callback toggle_habituation st
  | SpoutButton ax => callback (spout_command ax) st
  | SetThreshold => callback send_threshold st
  | SetFixDuration => callback send_fix_duration st
  | SetFixDelay => callback send_fix_delay st
  | SetEscapeBuffer => callback send_escape_buffer st
  | SetRewardBuffer => callback send_reward_buffer st
  | StartButton now => callback (start_session now) st
  | StopButton => callback stop_session st
  | SaveButton p => callback (save_data_to_file p) st
  | ClearButton => callback clear_table st
  | EmergencyButton => callback emergency_release st
  | LevelButton i => callback (send_level i) st
  | TimerTick now => callback (update_session_timer now) st
  end.

Definition run (tr : list action) (st : gui) : gui := fold_left (fun s a => step a s) tr st.

(** ** Well-formed states *)

Definition metrics : list string :=
  ["time"; "fix"; "escape"; "timeup"; "struggle"; "reward"].

(** The six totals exist and the table has its three rows of six. *)
Record wf (st : gui) : Prop := {
  wf_totals : Forall (fun k => is_Some (totals st !! k)) metrics;
  wf_rows : length (table_labels st) = 3%nat;
  wf_cols : Forall (fun row => length row = 6%nat) (table_labels st)
}.

(** The kinds of the totals: the running time is the int 0 of a clear or
    a float, the five counts are ints. *)
Definition typed (st : gui) : Prop :=
  (totals st !! "time" = Some (PyInt 0) \/ exists f, totals st !! "time" = Some (PyFloat f)) /\
  Forall (fun k => exists z, totals st !! k = Some (PyInt z))
    ["fix"; "escape"; "timeup"; "struggle"; "reward"].

(** ** Vocabulary of the statements *)

(** One trial as the reader builds it: a float and five ints. *)
Record trial := {
  t_duration : float;
  t_fix : Z;
  t_escape : Z;
  t_timeup : Z;
  t_struggle : Z;
  t_reward : Z
}.

Definition event_data (t : trial) : list pyval :=
  [PyFloat (t_duration t); PyInt (t_fix t); PyInt (t_escape t);
   PyInt (t_timeup t); PyInt (t_struggle t); PyInt (t_reward t)].

Definition as_trial (ev : list pyval) : option trial :=
  match ev with
  | [PyFloat d; PyInt a; PyInt b; PyInt c; PyInt e; PyInt r] =>
      Some {| t_duration := d; t_fix := a; t_escape := b; t_timeup := c;
              t_struggle := e; t_reward := r |}
  | _ => None
  end.

(** The trial that a line of the serial stream carries, if any. *)
Definition trial_of_line (raw : string) : option trial :=
  let line := strip raw in
  if is_empty line then None
  else if startswith "EVENT," line && (length (split "," line) =? 7)%nat then
    match event_data_of (split "," line) with
    | Ok ev => as_trial ev
    | Raise _ => None
    end
  else None.

Definition trial_of_action (a : action) : option trial :=
  match a with
  | SerialLine raw => trial_of_line raw
  | _ => None
  end.

Definition trials_of (tr : list action) : list trial := omap trial_of_action tr.

(** [0 + d1 + d2 + ...] as Python computes it: the int 0 when there is no
    trial, then float additions from left to right. *)
Definition sum_time (ts : list trial) : pyval :=
  match ts with
  | [] => PyInt 0
  | t :: r => PyFloat (fold_left fadd (map t_duration r)
                         (fadd (S754_zero false) (t_duration t)))
  end.

Definition sum_int (f : trial -> Z) (ts : list trial) : Z :=
  fold_left Z.add (map f ts) 0.

Definition zero_row : list text := replicate 6 [Lit "0"].

(** The last-trial row of the table after the trials [ts]. *)
Definition last_row (ts : list trial) : list text :=
  match last ts with
  | Some t => map py_str (event_data t)
  | None => zero_row
  end.

(** The state of the totals and of the last-trial row after a clear. *)
Definition cleared (st : gui) : Prop :=
  Forall (fun k => totals st !! k = Some (PyInt 0)) metrics /\
  table_labels st !! 2%nat = Some zero_row.

Definition is_clear (a : action) : bool :=
  match a with
  | ClearButton => true
  | _ => false
  end.

(** The five parameters and what [send_value] is called with for each. *)
Inductive param := Threshold | FixDuration | FixDelay | EscapeBuffer | RewardBuffer.

Definition send_param (p : param) : M unit :=
  match p with
  | Threshold => send_threshold
  | FixDuration => send_fix_duration
  | FixDelay => send_fix_delay
  | EscapeBuffer => send_escape_buffer
  | RewardBuffer => send_reward_buffer
  end.

Definition param_entry (p : param) : gui -> string :=
  match p with
  | Threshold => threshold_entry
  | FixDuration => fix_duration_entry
  | FixDelay => fix_delay_entry
  | EscapeBuffer => escape_buffer_entry
  | RewardBuffer => reward_buffer_entry
  end.

Definition param_letter (p : param) : string :=
  match p with
  | Threshold => "T"
  | FixDuration => "X"
  | FixDelay => "Y"
  | EscapeBuffer => "Z"
  | RewardBuffer => "Q"
  end.

Definition param_label (p : param) : string :=
  match p with
  | Threshold => "Struggle Threshold"
  | FixDuration => "Fix Duration"
  | FixDelay => "Fix Delay"
  | EscapeBuffer => "Escape Buffer"
  | RewardBuffer => "Reward Buffer"
  end.

(** 1000 for the two parameters entered in seconds, 1 for the others. *)
Definition param_multiplier (p : param) : Z :=
  match p with
  | FixDuration | FixDelay => 1000
  | Threshold | EscapeBuffer | RewardBuffer => 1
  end.

Definition param_box (p : param) : entry_box :=
  match p with
  | Threshold => ThresholdEntry
  | FixDuration => FixDurationEntry
  | FixDelay => FixDelayEntry
  | EscapeBuffer => EscapeBufferEntry
  | RewardBuffer => RewardBufferEntry
  end.

(** The state after the [except ValueError] branch of [send_value]. *)
Definition invalid_input (label : string) (st : gui) : gui :=
  set_console_box (console_box st ++ [[Lit ("Invalid input for " +:+ label)]]) st.

(** The state after the [try] branch of [send_value] went through. *)
Definition value_sent (command label : string) (val : float) (n : Z) (st : gui) : gui :=
  set_console_box (console_box st ++ [[Lit (label +:+ " set to "); Repr val]])
    (set_ser (ser st ++ [command +:+ str_int n +:+ newline]) st).

(** Inputs that [float()] takes to a finite number. *)
Definition finite_input (r : res float) : bool :=
  match r with
  | Ok (S754_zero _) | Ok (S754_finite _ _ _) => true
  | _ => false
  end.

(** Inputs that [float()] takes to an infinity. *)
Definition infinite_input (r : res float) : bool :=
  match r with
  | Ok (S754_infinity _) => true
  | _ => false
  end.

(** A float that is a number and not an infinity. *)
Definition finite_float (x : float) : bool :=
  match x with
  | S754_zero _ | S754_finite _ _ _ => true
  | _ => false
  end.

(** The exact value of a finite float [m * 2 ^ e] as a fraction. *)
Definition numerator (m : positive) (e : Z) : Z := Z.pos m * 2 ^ Z.max 0 e.
Definition denominator (e : Z) : Z := 2 ^ Z.max 0 (- e).

(** The seven phrases of the status checks. *)
Definition fixation_phrases : list string :=
  ["Fixation Engaged"; "Fixation Released"; "Escape Event"; "Time-Up Release"].
Definition struggle_phrases : list string := ["Struggle YES"; "Struggle NO"].
Definition phrases : list string :=
  fixation_phrases ++ struggle_phrases ++ ["Reward Given"].

Definition has_phrase (line : string) : bool :=
  existsb (fun p => contains p line) phrases.

(** The totals after one trial has been added to them. *)
Definition totals_after (t : trial) (f : float) (a b c e r : Z)
    (m : gmap string pyval) : gmap string pyval :=
  <["reward" := PyInt (r + t_reward t)]>
    (<["struggle" := PyInt (e + t_struggle t)]>
       (<["timeup" := PyInt (c + t_timeup t)]>
          (<["escape" := PyInt (b + t_escape t)]>
             (<["fix" := PyInt (a + t_fix t)]>
                (<["time" := PyFloat f]> m))))).

(** The five counts of a trial, each with its key in the totals. *)
Definition count_fields : list (string * (trial -> Z)) :=
  [("fix", t_fix); ("escape", t_escape); ("timeup", t_timeup);
   ("struggle", t_struggle); ("reward", t_reward)].

(** The totals and the last-trial row are those of the trials [ts]. *)
Definition tracks (ts : list trial) (st : gui) : Prop :=
  totals st !! "time" = Some (sum_time ts) /\
  totals st !! "fix" = Some (PyInt (sum_int t_fix ts)) /\
  totals st !! "escape" = Some (PyInt (sum_int t_escape ts)) /\
  totals st !! "timeup" = Some (PyInt (sum_int t_timeup ts)) /\
  totals st !! "struggle" = Some (PyInt (sum_int t_struggle ts)) /\
  totals st !! "reward" = Some (PyInt (sum_int t_reward ts)) /\
  exists r0 r1,
    table_labels st = [r0; r1; last_row ts] /\ length r0 = 6%nat /\ length r1 = 6%nat.

(** A statement that leaves a view of the state as it is, whether it
    ends or raises. *)
Definition keeps {X A} (view : gui -> X) (m : M A) : Prop :=
  forall st, view (snd (m st)) = view st.

(** The totals with the table, and the two status labels. *)
Definition trial_data (st : gui) : gmap string pyval * list (list text) :=
  (totals st, table_labels st).
Definition status_labels (st : gui) : label * label :=
  (fixation_label st, struggle_label st).

(** A line that the reader drops whole: it starts with [EVENT,], has
    seven fields, and one of them is refused. *)
Definition dropped (line : string) : bool :=
  startswith "EVENT," line && (length (split "," line) =? 7)%nat &&
  match event_data_of (split "," line) with
  | Raise _ => true
  | Ok _ => false
  end.

(** The characters of a string. *)
Fixpoint occurs (c : ascii) (s : string) : bool :=
  match s with
  | EmptyString => false
  | String d t => Ascii.eqb c d || occurs c t
  end.

Fixpoint all_chars (ok : ascii -> bool) (s : string) : bool :=
  match s with
  | EmptyString => true
  | String c t => ok c && all_chars ok t
  end.

(** The characters that [int()] and [float()] can accept at all. *)
Definition numeric_char (c : ascii) : bool :=
  is_digit c || is_num_space c || occurs c "+-._" || occurs (lower c) "einfatyn".

(** The characters of a line that the reader takes for a trial. *)
Definition event_char (c : ascii) : bool :=
  Ascii.eqb c "," || occurs c "EVENT" || numeric_char c.

(** What the fixation group of the status checks makes of a label. *)
Definition fixation_after (line : string) (old : label) : label :=
  if contains "Fixation Engaged" line then mk_label "Fixation: ACTIVE" "green"
  else if contains "Fixation Released" line then mk_label "Fixation: INACTIVE" "red"
  else if contains "Escape Event" line then mk_label "Fixation: ESCAPE" "yellow"
  else if contains "Time-Up Release" line then mk_label "Fixation: TIME UP" "purple"
  else old.

(** What the struggle group makes of a label. *)
Definition struggle_after (line : string) (old : label) : label :=
  if contains "Struggle YES" line then mk_label "Struggle: YES" "red"
  else if contains "Struggle NO" line then mk_label "Struggle: NO" "gray"
  else old.

(** ** Vocabulary of the further properties *)

(** The parts of the state that belong to the operator's side. *)
Definition flags (st : gui) : bool * bool * bool :=
  (flush_active st, free_reward_enabled st, habituation_enabled st).
Definition session (st : gui) : option float * bool :=
  (session_start_time st, timer_running st).
Definition spout (st : gui) : spout_btn * spout_btn * spout_btn * spout_btn :=
  (forward_btn st, backward_btn st, upward_btn st, downward_btn st).
Definition entries (st : gui) : string * string * string * string * string * string :=
  (threshold_entry st, fix_duration_entry st, fix_delay_entry st,
   escape_buffer_entry st, reward_buffer_entry st, rat_name_entry st).
Definition operator_side (st : gui) :=
  (ser st, flags st, session st, session_timer_label st, flush_button st,
   spout st, entries st, saved_files st).

(** What a trial line must leave alone: all but the totals and the table. *)
Definition all_but_trial_data (st : gui) :=
  (console_box st, status_labels st, operator_side st).

(** What a timer tick must leave alone: all but the timer label. *)
Definition all_but_timer_label (st : gui) :=
  (ser st, console_box st, flags st, session st, trial_data st, status_labels st,
   flush_button st, spout st, entries st, saved_files st).

(** The cell of the totals row for the running time: one decimal once it
    is a float, the int as it is before. *)
Definition time_cell (v : pyval) : text :=
  match v with
  | PyInt z => [Lit (str_int z)]
  | PyFloat f => [Fixed1 f]
  end.

(** The totals row as the totals dict would have it shown. *)
Definition totals_row (m : gmap string pyval) : option (list text) :=
  vt ← m !! "time"; a ← m !! "fix"; b ← m !! "escape"; c ← m !! "timeup";
  e ← m !! "struggle"; r ← m !! "reward";
  Some [time_cell vt; py_str a; py_str b; py_str c; py_str e; py_str r].

(** The totals row of the table shows what the totals dict holds. *)
Definition shows_totals (st : gui) : Prop :=
  exists row, totals_row (totals st) = Some row /\ table_labels st !! 1%nat = Some row.

Fixpoint count_char (c : ascii) (s : string) : nat :=
  match s with
  | EmptyString => O
  | String d t => (if Ascii.eqb d c then 1 else 0) + count_char c t
  end.

(** [sep.join(l)] *)
Fixpoint join (sep : string) (l : list string) : string :=
  match l with
  | [] => EmptyString
  | [x] => x
  | x :: r => x +:+ sep +:+ join sep r
  end.

Definition axis_letter (a : axis) : string :=
  match a with
  | Forward => "F"
  | Backward => "B"
  | Upward => "U"
  | Downward => "D"
  end.

(** What the flush button and a spout button show for a flag. *)
Definition flush_face (b : bool) : string :=
  if b then "Stop Flushing" else "Flush Water".
Definition spout_face (b : bool) : string :=
  if b then "#4CAF50" else "#e0e0e0".

(** Every toggle button shows the state of its flag. *)
Definition faces_agree (st : gui) : Prop :=
  flush_button st = flush_face (flush_active st) /\
  forall a, btn_bg (get_btn a st) = spout_face (pressed (get_btn a st)).

(** Actions that write nothing to the serial port. *)
Definition writes_nothing (a : action) : bool :=
  match a with
  | SerialLine _ | TypeEntry _ _ | SaveButton _ | ClearButton | TimerTick _ => true
  | _ => false
  end.

(** Actions that write exactly one command. *)
Definition writes_one (a : action) : bool :=
  match a with
  | FlushButton | FreeRewardCheck | HabituationCheck | SpoutButton _
  | StartButton _ | StopButton | EmergencyButton | LevelButton _ => true
  | _ => false
  end.

(** The toggle flags with what their buttons show. *)
Definition faces (st : gui) := (flush_active st, flush_button st, spout st).

(** The controls the operator sets: check boxes, toggle buttons and
    entry boxes. *)
Definition controls (st : gui) := (flags st, flush_button st, spout st, entries st).

(** The actions that are a click on a toggle or typing into a box. *)
Definition touches_controls (a : action) : bool :=
  match a with
  | TypeEntry _ _ | FlushButton | FreeRewardCheck | HabituationCheck
  | SpoutButton _ => true
  | _ => false
  end.

(** The rows of the table that hold data: the totals and the last trial. *)
Definition data_rows (st : gui) : option (list text) * option (list text) :=
  (table_labels st !! 1%nat, table_labels st !! 2%nat).

(** A statement that only ever appends to a list of the state, whether
    it ends or raises. *)
Definition grows {X A} (proj : gui -> list X) (m : M A) : Prop :=
  forall st, proj st `prefix_of` proj (snd (m st)).

(** * Properties *)

(** ** Running statements *)

Ltac run_m :=
  cbv beta iota delta
    [mbind mret M_bind M_ret res_mbind res_ret res_bind lift gets modify raise
     try_except for_each callback].

Lemma bind_ok {A B} (m : M A) (k : A -> M B) st a st' :
  m st = (Ok a, st') -> (m ≫= k) st = k a st'.
Proof. intros H. run_m. now rewrite H. Qed.

Lemma bind_raise {A B} (m : M A) (k : A -> M B) st e st' :
  m st = (Raise e, st') -> (m ≫= k) st = (Raise e, st').
Proof. intros H. run_m. now rewrite H. Qed.

Lemma wf_init : wf init_gui.
Proof.
  split.
  - repeat constructor; vm_compute; eauto.
  - reflexivity.
  - repeat constructor.
Qed.

(** A well-formed table, cell by cell. *)
Lemma wf_table st :
  wf st ->
  exists r0 a0 a1 a2 a3 a4 a5 b0 b1 b2 b3 b4 b5,
    table_labels st = [r0; [a0; a1; a2; a3; a4; a5]; [b0; b1; b2; b3; b4; b5]].
Proof.
  intros [_ Hr Hc].
  destruct (table_labels st) as [|r0 [|r1 [|r2 [|]]]]; try discriminate.
  repeat match goal with
         | H : Forall _ (_ :: _) |- _ => inversion H; clear H; subst
         end.
  destruct r1 as [|? [|? [|? [|? [|? [|? [|]]]]]]]; try discriminate.
  destruct r2 as [|? [|? [|? [|? [|? [|? [|]]]]]]]; try discriminate.
  repeat eexists.
Qed.

(** ** Actuator levels *)

Lemma send_level_run (level : Z) (st : gui) :
  send_level level st =
    (Ok tt,
     set_console_box
       (console_box st ++ [[Lit ("Actuator Level " +:+ str_int level +:+ " Selected")]])
       (set_ser (ser st ++ ["L" +:+ str_int level +:+ newline]) st)).
Proof. reflexivity. Qed.

(** C4, as the code has it: for every integer level, in or out of 1..5,
    [send_level] raises nothing and hands exactly the bytes
    ["L<level>\n"] to one [ser.write]; nothing else is written. *)
Theorem send_level_writes (level : Z) (st : gui) :
  fst (send_level level st) = Ok tt /\
  ser (snd (send_level level st)) = ser st ++ ["L" +:+ str_int level +:+ newline].
Proof. now rewrite send_level_run. Qed.

(** C4, as the claim has it, fails: level 6 is not refused, ["L6\n"] is
    written. *)
Lemma send_level_6_not_refused :
  fst (send_level 6 init_gui) = Ok tt /\
  ser (snd (send_level 6 init_gui)) = ["L6" +:+ newline].
Proof. split; reflexivity. Qed.

Example send_level_3 : ser (callback (send_level 3) init_gui) = ["L3" +:+ newline].
Proof. reflexivity. Qed.

(** ** Clearing the table *)

Lemma reset_table_run (st : gui) :
  wf st ->
  exists r0,
    table_labels st !! 0%nat = Some r0 /\
    reset_table st =
      (Ok tt, set_totals ((fun _ => PyInt 0) <$> totals st)
                (set_table_labels [r0; zero_row; zero_row] st)).
Proof.
  intros Hwf. destruct (wf_table st Hwf) as (r0 & ? & ? & ? & ? & ? & ? & ? & ? & ? & ? & ? & ? & Ht).
  exists r0. destruct st; simpl in Ht; subst. split; reflexivity.
Qed.

(** C8: from every well-formed state [reset_table] runs to its end
    without an exception, leaves each of the six totals at the int 0 and
    both data rows of the table (totals and last trial) at six ["0"],
    and does not touch the fixation label, the struggle label,
    [session_start_time], [timer_running] or the serial port. *)
Theorem reset_table_zeroes (st : gui) :
  wf st ->
  exists st',
    reset_table st = (Ok tt, st') /\
    Forall (fun k => totals st' !! k = Some (PyInt 0)) metrics /\
    dom (totals st') = dom (totals st) /\
    table_labels st' !! 1%nat = Some zero_row /\
    table_labels st' !! 2%nat = Some zero_row /\
    table_labels st' !! 0%nat = table_labels st !! 0%nat /\
    fixation_label st' = fixation_label st /\
    struggle_label st' = struggle_label st /\
    session_start_time st' = session_start_time st /\
    timer_running st' = timer_running st /\
    ser st' = ser st.
Proof.
  intros Hwf. destruct (reset_table_run st Hwf) as (r0 & H0 & Hrun).
  eexists. split; [exact Hrun|]. simpl.
  split.
  - eapply Forall_impl; [apply (wf_totals _ Hwf)|].
    intros k [v Hv]. simpl. now rewrite lookup_fmap, Hv.
  - repeat split; try done. apply dom_fmap_L.
Qed.

Lemma reset_table_zeroes_witness :
  wf (update_serial "EVENT,12.5,1,0,0,0,1" init_gui) /\
  exists st',
    reset_table (update_serial "EVENT,12.5,1,0,0,0,1" init_gui) = (Ok tt, st') /\
    Forall (fun k => totals st' !! k = Some (PyInt 0)) metrics /\
    table_labels st' !! 2%nat = Some zero_row.
Proof.
  assert (Hwf : wf (update_serial "EVENT,12.5,1,0,0,0,1" init_gui)).
  { split.
    - repeat constructor; vm_compute; eauto.
    - reflexivity.
    - repeat constructor. }
  split; [exact Hwf|].
  destruct (reset_table_zeroes _ Hwf) as (st' & H1 & H2 & _ & _ & H3 & _).
  exists st'. auto.
Defined.

(** ** Sending a parameter *)

Lemma py_float_raises (s : string) (e : exn) : py_float s = Raise e -> e = ValueError.
Proof. unfold py_float. repeat case_match; congruence. Qed.

Lemma py_int_raises (s : string) (e : exn) : py_int s = Raise e -> e = ValueError.
Proof. unfold py_int. repeat case_match; congruence. Qed.

Lemma send_value_run entry command label k st :
  send_value entry command label k st =
    match py_float (entry st) with
    | Raise _ => (Ok tt, invalid_input label st)
    | Ok val =>
        match res_bind (fmul_int val k) int_of_float with
        | Ok n => (Ok tt, value_sent command label val n st)
        | Raise ValueError => (Ok tt, invalid_input label st)
        | Raise e => (Raise e, st)
        end
    end.
Proof.
  unfold send_value. run_m.
  destruct (py_float (entry st)) as [val|e] eqn:Hf.
  - destruct (fmul_int val k) as [scaled|e]; simpl.
    + destruct (int_of_float scaled) as [n|e]; [reflexivity|]. now destruct e.
    + now destruct e.
  - now rewrite (py_float_raises _ _ Hf).
Qed.

Lemma send_param_run p st :
  send_param p st =
    send_value (param_entry p) (param_letter p) (param_label p) (param_multiplier p) st.
Proof. now destruct p. Qed.

Lemma fmul_int_param p v : exists fk, float_of_int (param_multiplier p) = Ok fk /\
  fmul_int v (param_multiplier p) = Ok (fmul v fk).
Proof. destruct p; eexists; split; reflexivity. Qed.

Lemma fmul_nan_l f : fmul S754_nan f = S754_nan.
Proof. reflexivity. Qed.

Lemma fmul_inf_l s fk :
  (exists m e, fk = S754_finite false m e) ->
  fmul (S754_infinity s) fk = S754_infinity s.
Proof. intros (m & e & ->). now destruct s. Qed.

Lemma param_multiplier_float p :
  exists m e, float_of_int (param_multiplier p) = Ok (S754_finite false m e).
Proof. destruct p; do 2 eexists; reflexivity. Qed.

(** C3, as amended: when the text of the entry box cannot be parsed as
    a number, or is parsed to NaN or to an infinity, nothing is written
    to the serial port and no entry box changes; when it is unparsable
    or NaN the helper answers with the invalid-input notice and ends.
    (A negative number is not among the inputs that are refused.) *)
Theorem send_param_rejects (p : param) (st : gui) :
  finite_input (py_float (param_entry p st)) = false ->
  ser (snd (send_param p st)) = ser st /\
  (forall q, param_entry q (snd (send_param p st)) = param_entry q st) /\
  (infinite_input (py_float (param_entry p st)) = false ->
   send_param p st = (Ok tt, invalid_input (param_label p) st)).
Proof.
  intros Hfin. rewrite send_param_run, send_value_run.
  destruct (fmul_int_param p S754_nan) as (fk & Hk & _).
  destruct (param_multiplier_float p) as (m & e & Hm).
  rewrite Hk in Hm. injection Hm as ->.
  destruct (py_float (param_entry p st)) as [[s|s| |s m' e']|ex]; try discriminate Hfin.
  - unfold fmul_int. rewrite Hk. cbn [res_bind].
    rewrite fmul_inf_l by eauto. cbn [int_of_float].
    repeat split. intros H. discriminate H.
  - unfold fmul_int. rewrite Hk. cbn [res_bind]. rewrite fmul_nan_l.
    cbn [int_of_float]. repeat split. intros q. now destruct q.
  - repeat split. intros q. now destruct q.
Qed.

Lemma send_param_rejects_witness :
  finite_input (py_float (param_entry Threshold
                (type_entry ThresholdEntry "abc" init_gui))) = false /\
  ser (snd (send_param Threshold (type_entry ThresholdEntry "abc" init_gui))) = [] /\
  console_box (snd (send_param Threshold (type_entry ThresholdEntry "abc" init_gui)))
    = [[Lit "Invalid input for Struggle Threshold"]].
Proof.
  split; [reflexivity|].
  destruct (send_param_rejects Threshold (type_entry ThresholdEntry "abc" init_gui))
    as (H1 & _ & H2); [reflexivity|].
  split; [exact H1|]. rewrite (H2 eq_refl). reflexivity.
Defined.

(** C3, as the claim has it, fails: the threshold box holding [-1] is
    not refused, ["T-1\n"] is written to the serial port. *)
Lemma negative_threshold_is_written :
  fst (send_threshold (type_entry ThresholdEntry "-1" init_gui)) = Ok tt /\
  ser (snd (send_threshold (type_entry ThresholdEntry "-1" init_gui)))
    = ["T-1" +:+ newline].
Proof. split; vm_compute; reflexivity. Qed.

Example nan_threshold_is_invalid :
  send_threshold (type_entry ThresholdEntry "nan" init_gui)
  = (Ok tt, invalid_input "Struggle Threshold" (type_entry ThresholdEntry "nan" init_gui)).
Proof. vm_compute. reflexivity. Qed.

Example inf_threshold_overflows :
  send_threshold (type_entry ThresholdEntry "inf" init_gui)
  = (Raise OverflowError, type_entry ThresholdEntry "inf" init_gui).
Proof. vm_compute. reflexivity. Qed.

(** C7, as amended: when the text of the entry box is a number [val]
    and the product [val * multiplier] is a finite float, the helper of
    the parameter raises nothing and makes one [ser.write] of the letter
    of the parameter, the decimal digits of [int(val * multiplier)] and a
    line feed; the multiplier is 1000 for the fix duration (X) and the fix
    delay (Y) and 1 for the threshold (T), the escape buffer (Z) and the
    reward buffer (Q). *)
Theorem send_param_writes (p : param) (st : gui) (val scaled : float) :
  py_float (param_entry p st) = Ok val ->
  fmul_int val (param_multiplier p) = Ok scaled ->
  finite_float scaled = true ->
  exists n,
    int_of_float scaled = Ok n /\
    send_param p st = (Ok tt, value_sent (param_letter p) (param_label p) val n st) /\
    ser (snd (send_param p st)) = ser st ++ [param_letter p +:+ str_int n +:+ newline] /\
    (param_letter p, param_multiplier p) ∈
      [("T", 1); ("X", 1000); ("Y", 1000); ("Z", 1); ("Q", 1)].
Proof.
  intros Hf Hm Hfin.
  assert (Hn : exists n, int_of_float scaled = Ok n)
    by (destruct scaled; try discriminate Hfin; eexists; reflexivity).
  destruct Hn as [n Hn]. exists n. split; [exact Hn|].
  rewrite send_param_run, send_value_run, Hf, Hm. cbn [res_bind]. rewrite Hn.
  repeat split. destruct p; simpl; set_solver.
Qed.

Lemma send_param_writes_witness :
  py_float (param_entry FixDuration init_gui) = Ok (S754_finite false 7881299347898368 (-50)) /\
  exists n,
    int_of_float (S754_finite false 7696581394432000 (-40)) = Ok n /\
    ser (snd (send_param FixDuration init_gui)) = ["X" +:+ str_int n +:+ newline].
Proof.
  split; [reflexivity|].
  destruct (send_param_writes FixDuration init_gui
              (S754_finite false 7881299347898368 (-50))
              (S754_finite false 7696581394432000 (-40)) eq_refl eq_refl eq_refl)
    as (n & Hn & _ & Hs & _).
  exists n. split; [exact Hn|exact Hs].
Defined.

(** C7, as the claim has it, fails: [1e306] is a finite, non-negative
    number, yet with it in the fix-duration box nothing is written: the
    product with 1000 is not a finite float any more. *)
Lemma huge_fix_duration_is_not_written :
  py_float (param_entry FixDuration (type_entry FixDurationEntry "1e306" init_gui))
    = Ok (S754_finite false 6413338752028713 964) /\
  finite_input (py_float (param_entry FixDuration
                  (type_entry FixDurationEntry "1e306" init_gui))) = true /\
  ser (snd (send_param FixDuration (type_entry FixDurationEntry "1e306" init_gui))) = [].
Proof. repeat split; vm_compute; reflexivity. Qed.

Lemma div_trunc_bounds (m d : Z) :
  0 < d -> 0 <= m -> (m / d) * d <= m < (m / d + 1) * d.
Proof.
  intros Hd Hm. pose proof (Z.mul_div_le m d Hd).
  pose proof (Z.mul_succ_div_gt m d Hd). lia.
Qed.

Lemma int_of_float_trunc (s : bool) (m : positive) (e n : Z) :
  int_of_float (S754_finite s m e) = Ok n ->
  Z.abs n * denominator e <= numerator m e < (Z.abs n + 1) * denominator e /\
  (if s then n <= 0 else 0 <= n).
Proof.
  unfold int_of_float, numerator, denominator. intros [= <-].
  assert (H2 : forall k, 0 < 2 ^ Z.pos k) by (intros; apply Z.pow_pos_nonneg; lia).
  destruct e as [|k|k];
    [| change (- Z.pos k) with (Z.neg k) | change (- Z.neg k) with (Z.pos k)].
  - change (Z.max 0 (- 0)) with 0. change (Z.max 0 0) with 0.
    rewrite Z.pow_0_r. destruct s; split; lia.
  - rewrite (Z.max_r 0 (Z.pos k)), (Z.max_l 0 (Z.neg k)) by lia.
    rewrite Z.pow_0_r. specialize (H2 k). destruct s; split; nia.
  - rewrite (Z.max_l 0 (Z.neg k)), (Z.max_r 0 (Z.pos k)) by lia.
    specialize (H2 k).
    pose proof (div_trunc_bounds (Z.pos m) (2 ^ Z.pos k) H2 ltac:(lia)) as Hb.
    assert (0 <= Z.pos m / 2 ^ Z.pos k) by (apply Z.div_pos; lia).
    destruct s; rewrite ?Z.abs_opp, Z.abs_eq by lia; split; lia.
Qed.

(** C9: the int that a helper writes is [int(val * multiplier)], the
    product cut toward zero: with the product [±m/d] as an exact
    fraction, [|n| <= m/d < |n| + 1] and [n] has the sign of the product
    (a product that is a zero gives 0).  So 350.7 is sent as T350 and
    1.0015 seconds as X1001. *)
Theorem send_param_truncates (p : param) (st : gui) (val scaled : float) (n : Z) :
  py_float (param_entry p st) = Ok val ->
  fmul_int val (param_multiplier p) = Ok scaled ->
  int_of_float scaled = Ok n ->
  ser (snd (send_param p st)) = ser st ++ [param_letter p +:+ str_int n +:+ newline] /\
  match scaled with
  | S754_finite s m e =>
      Z.abs n * denominator e <= numerator m e < (Z.abs n + 1) * denominator e /\
      (if s then n <= 0 else 0 <= n)
  | _ => n = 0
  end.
Proof.
  intros Hf Hm Hn. split.
  - rewrite send_param_run, send_value_run, Hf, Hm. simpl. now rewrite Hn.
  - destruct scaled; try discriminate.
    + now injection Hn.
    + now apply int_of_float_trunc.
Qed.

Lemma send_param_truncates_witness :
  (py_float (param_entry Threshold (type_entry ThresholdEntry "350.7" init_gui))
     = Ok (S754_finite false 6169579645776691 (-44)) /\
   ser (snd (send_param Threshold (type_entry ThresholdEntry "350.7" init_gui)))
     = ["T350" +:+ newline]) /\
  (py_float (param_entry FixDuration (type_entry FixDurationEntry "1.0015" init_gui))
     = Ok (S754_finite false 4510355026811552 (-52)) /\
   ser (snd (send_param FixDuration (type_entry FixDurationEntry "1.0015" init_gui)))
     = ["X1001" +:+ newline]).
Proof.
  split; (split; [vm_compute; reflexivity|]).
  - apply (send_param_truncates Threshold (type_entry ThresholdEntry "350.7" init_gui)
             (S754_finite false 6169579645776691 (-44))
             (S754_finite false 6169579645776691 (-44)) 350);
      vm_compute; reflexivity.
  - apply (send_param_truncates FixDuration (type_entry FixDurationEntry "1.0015" init_gui)
             (S754_finite false 4510355026811552 (-52))
             (S754_finite false 8809287161741312 (-43)) 1001);
      vm_compute; reflexivity.
Defined.

(** ** The trial table *)

Lemma config_table_run st r c t rows row x :
  table_labels st = rows -> rows !! r = Some row -> row !! c = Some x ->
  config_table r c t st = (Ok tt, set_table_labels (<[r := <[c := t]> row]> rows) st).
Proof.
  intros <- Hr Hc. unfold config_table, item. run_m. now rewrite Hr, Hc.
Qed.

Lemma totals_get_run st k v :
  totals st !! k = Some v -> totals_get k st = (Ok v, st).
Proof. intros H. unfold totals_get. run_m. now rewrite H. Qed.

Lemma totals_iadd_run st k old v new :
  totals st !! k = Some old -> py_add old v = Ok new ->
  totals_iadd k v st = (Ok tt, set_totals (<[k := new]> (totals st)) st).
Proof.
  intros H Ha. unfold totals_iadd.
  rewrite (bind_ok _ _ _ _ _ (totals_get_run _ _ _ H)).
  run_m. now rewrite Ha.
Qed.

Ltac norm_st :=
  cbn [set_ser set_console_box set_totals set_table_labels
       ser console_box flush_active free_reward_enabled habituation_enabled totals
       session_start_time timer_running table_labels fixation_label struggle_label
       session_timer_label flush_button forward_btn backward_btn upward_btn downward_btn
       threshold_entry fix_duration_entry fix_delay_entry escape_buffer_entry
       reward_buffer_entry rat_name_entry saved_files
       insert list_insert].

Ltac lookup_tot :=
  simpl; repeat (rewrite lookup_insert_ne by discriminate);
  first [apply lookup_insert_eq | eassumption].

Ltac step_config :=
  erewrite bind_ok by (eapply config_table_run; reflexivity); norm_st.
Ltac step_iadd :=
  erewrite bind_ok
    by (eapply totals_iadd_run; [lookup_tot | first [eassumption | reflexivity]]);
  norm_st.
Ltac step_get :=
  erewrite bind_ok by (eapply totals_get_run; lookup_tot); norm_st.

Lemma update_table_run st t r0 r1 r2 vt f a b c e r :
  table_labels st = [r0; r1; r2] ->
  length r1 = 6%nat -> length r2 = 6%nat ->
  totals st !! "time" = Some vt ->
  py_add vt (PyFloat (t_duration t)) = Ok (PyFloat f) ->
  totals st !! "fix" = Some (PyInt a) ->
  totals st !! "escape" = Some (PyInt b) ->
  totals st !! "timeup" = Some (PyInt c) ->
  totals st !! "struggle" = Some (PyInt e) ->
  totals st !! "reward" = Some (PyInt r) ->
  update_table (event_data t) st =
    (Ok tt,
     set_table_labels
       [r0;
        [[Fixed1 f]; py_str (PyInt (a + t_fix t)); py_str (PyInt (b + t_escape t));
         py_str (PyInt (c + t_timeup t)); py_str (PyInt (e + t_struggle t));
         py_str (PyInt (r + t_reward t))];
        map py_str (event_data t)]
       (set_totals (totals_after t f a b c e r (totals st)) st)).
Proof.
  intros Ht L1 L2 H1 Ha H2 H3 H4 H5 H6.
  destruct r1 as [|? [|? [|? [|? [|? [|? [|]]]]]]]; try discriminate.
  destruct r2 as [|? [|? [|? [|? [|? [|? [|]]]]]]]; try discriminate.
  destruct st; simpl in *; subst.
  unfold update_table, event_data.
  erewrite bind_ok; cycle 1.
  { cbn [imap for_each fst snd]. do 6 step_config. reflexivity. }
  do 6 step_iadd.
  step_get. erewrite bind_ok by reflexivity. step_config.
  do 4 (step_get; step_config).
  step_get.
  erewrite config_table_run by reflexivity.
  reflexivity.
Qed.

(** ** The reader, case by case *)

Lemma status_checks_frame (line : string) (st : gui) :
  exists st',
    status_checks line st = (Ok tt, st') /\
    totals st' = totals st /\ table_labels st' = table_labels st /\
    ser st' = ser st /\ session_start_time st' = session_start_time st /\
    timer_running st' = timer_running st.
Proof.
  unfold status_checks. run_m.
  repeat match goal with
         | |- context [if ?b then _ else _] => destruct b
         end; eexists; (split; [reflexivity|]); repeat split; reflexivity.
Qed.

Lemma has_phrase_false (line : string) :
  has_phrase line = false ->
  Forall (fun p => contains p line = false) phrases.
Proof.
  unfold has_phrase. intros H. apply Forall_forall. intros p Hp.
  destruct (contains p line) eqn:E; [|reflexivity].
  assert (existsb (fun p => contains p line) phrases = true) as Ht.
  { apply existsb_exists. exists p. split; [|exact E]. now apply list_elem_of_In. }
  congruence.
Qed.

(** A line without any of the phrases goes through the status checks
    without a trace. *)
Lemma status_checks_silent (line : string) (st : gui) :
  has_phrase line = false -> status_checks line st = (Ok tt, st).
Proof.
  intros H. apply has_phrase_false in H.
  repeat match goal with
         | H : Forall _ (_ :: _) |- _ => inversion H; clear H; subst
         | H : Forall _ (_ ++ _) |- _ => simpl in H
         end.
  unfold phrases in H; simpl in H.
  repeat match goal with
         | H : Forall _ (_ :: _) |- _ => inversion H; clear H; subst
         end.
  unfold status_checks. run_m.
  repeat match goal with
         | H : contains _ line = false |- _ => rewrite H; clear H
         end.
  now destruct st.
Qed.

Lemma update_serial_body_empty raw st :
  is_empty (strip raw) = true -> update_serial_body raw st = (Ok tt, st).
Proof. intros H. unfold update_serial_body. now rewrite H. Qed.

Lemma update_serial_body_status raw st :
  is_empty (strip raw) = false ->
  startswith "EVENT," (strip raw) && (length (split "," (strip raw)) =? 7)%nat = false ->
  update_serial_body raw st = status_checks (strip raw) st.
Proof.
  intros He H. unfold update_serial_body. rewrite He.
  apply andb_false_iff in H as [H|H]; rewrite H.
  - reflexivity.
  - destruct (startswith _ _); reflexivity.
Qed.

Lemma update_serial_body_event raw st :
  startswith "EVENT," (strip raw) = true ->
  length (split "," (strip raw)) = 7%nat ->
  update_serial_body raw st =
    match event_data_of (split "," (strip raw)) with
    | Ok ev => (update_table ev ≫= fun _ => status_checks (strip raw)) st
    | Raise e => (Raise e, st)
    end.
Proof.
  intros Hs Hl. unfold update_serial_body.
  destruct (strip raw) as [|c line] eqn:E; [discriminate Hs|].
  cbn [is_empty]. rewrite Hs, Hl. change (7 =? 7)%nat with true. cbv iota.
  run_m. destruct (event_data_of _); reflexivity.
Qed.

Lemma event_data_of_shape parts ev :
  event_data_of parts = Ok ev -> exists t, ev = event_data t /\ as_trial ev = Some t.
Proof.
  unfold event_data_of. run_m.
  repeat match goal with
         | |- context [match ?r with Ok _ => _ | Raise _ => _ end] => destruct r
         end; try discriminate.
  intros [= <-]. eexists {| t_duration := _ |}. split; reflexivity.
Qed.

Lemma trial_of_line_event raw t :
  trial_of_line raw = Some t ->
  is_empty (strip raw) = false /\
  startswith "EVENT," (strip raw) = true /\
  length (split "," (strip raw)) = 7%nat /\
  event_data_of (split "," (strip raw)) = Ok (event_data t).
Proof.
  unfold trial_of_line.
  destruct (is_empty (strip raw)); [discriminate|].
  destruct (startswith _ _); [|discriminate].
  destruct (_ =? _)%nat eqn:El; [|discriminate]. cbn [andb].
  destruct (event_data_of _) as [ev|] eqn:Ev; [|discriminate].
  intros Ht. destruct (event_data_of_shape _ _ Ev) as (t' & -> & Ht').
  rewrite Ht' in Ht. injection Ht as ->.
  repeat split. now apply Nat.eqb_eq.
Qed.

Lemma trial_of_line_none raw st :
  trial_of_line raw = None ->
  update_serial raw st = st \/
  update_serial raw st = snd (status_checks (strip raw) st).
Proof.
  unfold trial_of_line, update_serial. intros H.
  destruct (is_empty (strip raw)) eqn:Ee.
  { left. now rewrite update_serial_body_empty. }
  destruct (startswith "EVENT," (strip raw) && (length (split "," (strip raw)) =? 7)%nat)
    eqn:Hb.
  - apply andb_true_iff in Hb as [Hs Hl]. apply Nat.eqb_eq in Hl.
    rewrite update_serial_body_event by assumption.
    destruct (event_data_of _) as [ev|] eqn:Ev; [|now left].
    destruct (event_data_of_shape _ _ Ev) as (t & _ & Ht). congruence.
  - right. now rewrite update_serial_body_status.
Qed.

(** ** Totals are sums *)

Lemma sum_int_snoc (f : trial -> Z) ts t : sum_int f (ts ++ [t]) = sum_int f ts + f t.
Proof. unfold sum_int. now rewrite map_app, fold_left_app. Qed.

Lemma sum_time_snoc ts t :
  py_add (sum_time ts) (PyFloat (t_duration t)) = Ok (sum_time (ts ++ [t])).
Proof.
  destruct ts as [|t0 r]; [reflexivity|].
  cbn [sum_time app py_add]. now rewrite map_app, fold_left_app.
Qed.

Lemma sum_time_snoc_float ts t : exists f, sum_time (ts ++ [t]) = PyFloat f.
Proof. destruct ts; eexists; reflexivity. Qed.

Lemma last_row_snoc ts t : last_row (ts ++ [t]) = map py_str (event_data t).
Proof. unfold last_row. now rewrite last_snoc. Qed.

Lemma last_row_length ts : length (last_row ts) = 6%nat.
Proof. unfold last_row. now destruct (last ts). Qed.

Lemma tracks_ext ts st st' :
  totals st' = totals st -> table_labels st' = table_labels st ->
  tracks ts st -> tracks ts st'.
Proof. unfold tracks. now intros -> ->. Qed.

Lemma tracks_update_table ts t st :
  tracks ts st ->
  exists st',
    update_table (event_data t) st = (Ok tt, st') /\ tracks (ts ++ [t]) st'.
Proof.
  intros (H1 & H2 & H3 & H4 & H5 & H6 & r0 & r1 & Ht & L0 & L1).
  destruct (sum_time_snoc_float ts t) as [f Hf].
  pose proof (sum_time_snoc ts t) as Ha. rewrite Hf in Ha.
  eexists. split.
  - eapply update_table_run; eauto using last_row_length.
  - unfold tracks, totals_after. rewrite !sum_int_snoc, last_row_snoc, Hf.
    repeat split; try (simpl; solve [lookup_tot]).
    do 2 eexists. split; [reflexivity|]. split; [exact L0|reflexivity].
Qed.

Lemma cleared_tracks st : wf st -> cleared st -> tracks [] st.
Proof.
  intros Hwf [Hz Hr].
  destruct (wf_table st Hwf) as (r0 & ? & ? & ? & ? & ? & ? & ? & ? & ? & ? & ? & ? & Ht).
  rewrite Ht in Hr. injection Hr as Hr. unfold metrics in Hz.
  repeat match goal with
         | H : Forall _ (_ :: _) |- _ => inversion H; clear H; subst
         end.
  pose proof (wf_cols _ Hwf) as Hc. rewrite Ht in Hc. inversion Hc; subst.
  unfold tracks. repeat split; try assumption.
  do 2 eexists. rewrite Ht. split; [reflexivity|]. split; [assumption|reflexivity].
Qed.

Section Frame.
Context {X : Type} (view : gui -> X).

Lemma keeps_ret {A} (a : A) : keeps view (mret a).
Proof. intros st. reflexivity. Qed.

Lemma keeps_lift {A} (r : res A) : keeps view (lift r).
Proof. intros st. reflexivity. Qed.

Lemma keeps_gets {A} (f : gui -> A) : keeps view (gets f).
Proof. intros st. reflexivity. Qed.

Lemma keeps_raise {A} (e : exn) : keeps view (@raise A e).
Proof. intros st. reflexivity. Qed.

Lemma keeps_modify (f : gui -> gui) :
  (forall st, view (f st) = view st) -> keeps view (modify f).
Proof. intros H st. apply H. Qed.

Lemma keeps_bind {A B} (m : M A) (k : A -> M B) :
  keeps view m -> (forall a, keeps view (k a)) -> keeps view (m ≫= k).
Proof.
  intros Hm Hk st. specialize (Hm st). run_m.
  destruct (m st) as [[a|e] st1]; cbn [snd] in *.
  - now rewrite (Hk a st1).
  - exact Hm.
Qed.

Lemma keeps_try_except (body handler : M unit) (E : exn -> bool) :
  keeps view body -> keeps view handler -> keeps view (try_except body E handler).
Proof.
  intros Hb Hh st. specialize (Hb st). unfold try_except.
  destruct (body st) as [[a|e] st1]; cbn [snd] in *; [exact Hb|].
  destruct (E e); cbn [snd]; [|exact Hb].
  now rewrite (Hh st1).
Qed.

Lemma keeps_for_each {A} (l : list A) (body : A -> M unit) :
  (forall x, keeps view (body x)) -> keeps view (for_each l body).
Proof.
  intros Hb. induction l as [|x l IH]; cbn [for_each].
  - apply keeps_ret.
  - apply keeps_bind; [apply Hb|intros _; exact IH].
Qed.
End Frame.

Lemma keeps_trial_data {A} (m : M A) (st : gui) :
  keeps trial_data m ->
  totals (snd (m st)) = totals st /\ table_labels (snd (m st)) = table_labels st.
Proof. intros H. specialize (H st). now injection H. Qed.

Lemma keeps_status_labels {A} (m : M A) (st : gui) :
  keeps status_labels m ->
  fixation_label (snd (m st)) = fixation_label st /\
  struggle_label (snd (m st)) = struggle_label st.
Proof. intros H. specialize (H st). now injection H. Qed.

Lemma keeps_ser_write {X} (view : gui -> X) b :
  (forall v st, view (set_ser v st) = view st) -> keeps view (ser_write b).
Proof. intros H. apply keeps_modify. intros st. apply H. Qed.

Lemma keeps_add_console_log {X} (view : gui -> X) msg :
  (forall v st, view (set_console_box v st) = view st) ->
  keeps view (add_console_log msg).
Proof. intros H. apply keeps_modify. intros st. apply H. Qed.

Ltac keeps_op :=
  repeat first
    [ apply keeps_ret | apply keeps_lift | apply keeps_gets | apply keeps_raise
    | apply keeps_ser_write; reflexivity
    | apply keeps_add_console_log; reflexivity
    | apply keeps_modify; intros ?; reflexivity
    | apply keeps_try_except
    | apply keeps_for_each; intros ?
    | apply keeps_bind; [|intros ?]
    | match goal with
      | |- keeps _ (if ?b then _ else _) => destruct b
      | |- keeps _ (match ?x with _ => _ end) => destruct x
      end ].

Lemma keeps_cget_table {X} (view : gui -> X) r c : keeps view (cget_table r c).
Proof. unfold cget_table. keeps_op. Qed.

Lemma keeps_toggle_flush : keeps trial_data toggle_flush.
Proof. unfold toggle_flush. keeps_op. Qed.

Lemma keeps_toggle_free_reward : keeps trial_data toggle_free_reward.
Proof. unfold toggle_free_reward. keeps_op. Qed.

Lemma keeps_toggle_habituation : keeps trial_data toggle_habituation.
Proof. unfold toggle_habituation. keeps_op. Qed.

Lemma keeps_toggle_button a on off label :
  keeps trial_data (toggle_button a on off label).
Proof.
  unfold toggle_button. keeps_op.
  all: apply keeps_modify; intros ?; destruct a; reflexivity.
Qed.

Lemma keeps_send_value entry command label k :
  keeps trial_data (send_value entry command label k).
Proof. unfold send_value. keeps_op. Qed.

Lemma keeps_save_data_to_file p : keeps trial_data (save_data_to_file p).
Proof.
  unfold save_data_to_file. destruct (is_empty p); [apply keeps_ret|].
  repeat (apply keeps_bind; [apply keeps_cget_table|intros ?]). keeps_op.
Qed.

Lemma keeps_update_session_timer now : keeps trial_data (update_session_timer now).
Proof. unfold update_session_timer. keeps_op. Qed.

Lemma keeps_start_session now : keeps trial_data (start_session now).
Proof. unfold start_session. keeps_op. Qed.

Lemma keeps_stop_session : keeps trial_data stop_session.
Proof. unfold stop_session. keeps_op. Qed.

Lemma keeps_send_level i : keeps trial_data (send_level i).
Proof. unfold send_level. keeps_op. Qed.

Lemma keeps_status_checks line : keeps trial_data (status_checks line).
Proof. unfold status_checks. keeps_op. Qed.

Lemma keeps_config_table r c t : keeps status_labels (config_table r c t).
Proof. unfold config_table. keeps_op. Qed.

Lemma keeps_totals_get k : keeps status_labels (totals_get k).
Proof. unfold totals_get. keeps_op. Qed.

Lemma keeps_totals_iadd k v : keeps status_labels (totals_iadd k v).
Proof.
  unfold totals_iadd. apply keeps_bind; [apply keeps_totals_get|intros ?]. keeps_op.
Qed.

(** [update_table] does not touch the status labels, even when it is
    cut short by an exception. *)
Lemma keeps_update_table ev : keeps status_labels (update_table ev).
Proof.
  unfold update_table.
  destruct ev as [|? [|? [|? [|? [|? [|? [|]]]]]]]; try apply keeps_raise.
  repeat first
    [ apply keeps_config_table | apply keeps_totals_iadd | apply keeps_totals_get
    | apply keeps_lift
    | apply keeps_for_each; intros ?
    | apply keeps_bind; [|intros ?] ].
Qed.

(** What is neither a line of the reader nor the clear button leaves the
    totals and the table as they are. *)
Lemma step_frame (a : action) (st : gui) :
  match a with
  | SerialLine _ | ClearButton => False
  | _ => True
  end ->
  totals (step a st) = totals st /\ table_labels (step a st) = table_labels st.
Proof.
  destruct a as [raw|e s| | | |ax| | | | | |now| |p| | |i|now];
    intros H; try contradiction; clear H; unfold step, callback.
  - destruct e; split; reflexivity.
  - apply keeps_trial_data, keeps_toggle_flush.
  - apply keeps_trial_data, keeps_toggle_free_reward.
  - apply keeps_trial_data, keeps_toggle_habituation.
  - destruct ax; apply keeps_trial_data, keeps_toggle_button.
  - apply keeps_trial_data, keeps_send_value.
  - apply keeps_trial_data, keeps_send_value.
  - apply keeps_trial_data, keeps_send_value.
  - apply keeps_trial_data, keeps_send_value.
  - apply keeps_trial_data, keeps_send_value.
  - apply keeps_trial_data, keeps_start_session.
  - apply keeps_trial_data, keeps_stop_session.
  - apply keeps_trial_data, keeps_save_data_to_file.
  - apply keeps_trial_data, keeps_ser_write. reflexivity.
  - apply keeps_trial_data, keeps_send_level.
  - apply keeps_trial_data, keeps_update_session_timer.
Qed.

Lemma step_tracks ts a st :
  tracks ts st -> is_clear a = false ->
  tracks (ts ++ option_list (trial_of_action a)) (step a st).
Proof.
  intros Htr Hc.
  destruct (trial_of_action a) as [t|] eqn:Ht; cbn [option_list].
  - destruct a; try discriminate. cbn [trial_of_action] in Ht. cbn [step].
    destruct (trial_of_line_event _ _ Ht) as (_ & Hs & Hl & Hev).
    unfold update_serial. rewrite update_serial_body_event, Hev by assumption.
    destruct (tracks_update_table ts t st Htr) as (st1 & Hrun & Htr1).
    rewrite (bind_ok _ _ _ _ _ Hrun).
    destruct (status_checks_frame (strip raw) st1) as (st2 & -> & Et & El & _).
    eapply tracks_ext; eassumption.
  - rewrite app_nil_r.
    destruct a; try discriminate Hc;
      try (match goal with
           | |- tracks _ (step ?a _) => destruct (step_frame a st I) as [Et El]
           end; eapply tracks_ext; eassumption).
    cbn [trial_of_action] in Ht. cbn [step].
    destruct (trial_of_line_none raw st Ht) as [->| ->]; [assumption|].
    destruct (status_checks_frame (strip raw) st) as (st2 & -> & Et & El & _).
    eapply tracks_ext; eassumption.
Qed.

Lemma trials_of_cons a tr :
  trials_of (a :: tr) = option_list (trial_of_action a) ++ trials_of tr.
Proof. unfold trials_of. simpl. now destruct (trial_of_action a). Qed.

Lemma run_tracks tr : forall ts st,
  tracks ts st -> Forall (fun a => is_clear a = false) tr ->
  tracks (ts ++ trials_of tr) (run tr st).
Proof.
  induction tr as [|a tr IH]; intros ts st Htr Hc.
  - unfold trials_of. cbn. now rewrite app_nil_r.
  - inversion Hc; subst. rewrite trials_of_cons, app_assoc.
    apply IH; [|assumption]. now apply step_tracks.
Qed.

Lemma step_no_trial_totals (a : action) (st : gui) :
  is_clear a = false -> trial_of_action a = None ->
  totals (step a st) = totals st.
Proof.
  intros Hc Ht.
  destruct a; try discriminate Hc;
    try (match goal with
         | |- totals (step ?a _) = _ => exact (proj1 (step_frame a st I))
         end).
  cbn [trial_of_action] in Ht. cbn [step].
  destruct (trial_of_line_none raw st Ht) as [->| ->]; [reflexivity|].
  apply keeps_trial_data, keeps_status_checks.
Qed.

Lemma clear_button_run (st : gui) :
  wf st -> wf (step ClearButton st) /\ cleared (step ClearButton st).
Proof.
  intros Hwf. destruct (reset_table_run st Hwf) as (r0 & H0 & Hrun).
  unfold step, callback, clear_table. rewrite (bind_ok _ _ _ _ _ Hrun).
  cbn [snd add_console_log modify set_console_box set_totals set_table_labels
       totals table_labels].
  assert (Hz : Forall (fun k => ((fun _ => PyInt 0) <$> totals st) !! k = Some (PyInt 0))
                 metrics).
  { eapply Forall_impl; [apply (wf_totals _ Hwf)|].
    intros k [v Hv]. simpl. now rewrite lookup_fmap, Hv. }
  split; [split|split]; cbn; try reflexivity; try assumption.
  - eapply Forall_impl; [exact Hz|]. intros k Hk. simpl in *. eauto.
  - pose proof (wf_cols _ Hwf) as Hc. pose proof (wf_rows _ Hwf) as Hr.
    destruct (table_labels st) as [|r0' rest]; [discriminate|].
    injection H0 as ->. inversion Hc; subst. repeat constructor. assumption.
Qed.

Lemma cleared_init : cleared init_gui.
Proof. split; [repeat constructor|reflexivity]. Qed.

(** C1: start from a clear (the state a clear leaves, or the one the
    module starts in) and let anything happen but another clear: lines
    from the serial port, buttons, check boxes, typing, timer ticks.
    Then each total is the sum of its field over the trials that the
    lines carried, in their order (the time as Python adds floats, from
    the int 0), the last-trial row shows the fields of the last of these
    trials (six zeros when there was none), and any further step that
    is not a trial and not a clear leaves the totals as they are. *)
Theorem totals_are_sums (st : gui) (tr : list action) :
  wf st -> cleared st -> Forall (fun a => is_clear a = false) tr ->
  totals (run tr st) !! "time" = Some (sum_time (trials_of tr)) /\
  totals (run tr st) !! "fix" = Some (PyInt (sum_int t_fix (trials_of tr))) /\
  totals (run tr st) !! "escape" = Some (PyInt (sum_int t_escape (trials_of tr))) /\
  totals (run tr st) !! "timeup" = Some (PyInt (sum_int t_timeup (trials_of tr))) /\
  totals (run tr st) !! "struggle" = Some (PyInt (sum_int t_struggle (trials_of tr))) /\
  totals (run tr st) !! "reward" = Some (PyInt (sum_int t_reward (trials_of tr))) /\
  table_labels (run tr st) !! 2%nat = Some (last_row (trials_of tr)) /\
  (forall a, is_clear a = false -> trial_of_action a = None ->
             totals (step a (run tr st)) = totals (run tr st)).
Proof.
  intros Hwf Hcl Hnc.
  pose proof (run_tracks tr [] st (cleared_tracks st Hwf Hcl) Hnc) as Htr.
  rewrite app_nil_l in Htr.
  destruct Htr as (H1 & H2 & H3 & H4 & H5 & H6 & r0 & r1 & Ht & _ & _).
  repeat split; try assumption.
  - now rewrite Ht.
  - intros a. apply step_no_trial_totals.
Qed.

Lemma totals_are_sums_witness :
  let st := step ClearButton (update_serial "EVENT,3.25,4,4,4,4,4" init_gui) in
  let tr := [SerialLine "EVENT,12.5,1,0,0,0,1"; FlushButton;
             SerialLine "Struggle YES"; SetThreshold;
             SerialLine "EVENT,0.75,0,1,0,1,0"; StopButton] in
  wf st /\ cleared st /\ Forall (fun a => is_clear a = false) tr /\
  totals (run tr st) !! "time" = Some (PyFloat (S754_finite false 7459086882832384 (-49))) /\
  totals (run tr st) !! "fix" = Some (PyInt 1) /\
  totals (run tr st) !! "escape" = Some (PyInt 1) /\
  totals (run tr st) !! "reward" = Some (PyInt 1) /\
  table_labels (run tr st) !! 2%nat =
    Some [[Repr (S754_finite false 6755399441055744 (-53))]; [Lit "0"]; [Lit "1"];
          [Lit "0"]; [Lit "1"]; [Lit "0"]].
Proof.
  intros st tr.
  assert (Hwf0 : wf (update_serial "EVENT,3.25,4,4,4,4,4" init_gui)).
  { split.
    - repeat constructor; vm_compute; eauto.
    - reflexivity.
    - repeat constructor. }
  destruct (clear_button_run _ Hwf0) as [Hwf Hcl].
  assert (Hnc : Forall (fun a => is_clear a = false) tr) by (repeat constructor).
  destruct (totals_are_sums st tr Hwf Hcl Hnc)
    as (H1 & H2 & H3 & _ & _ & H6 & H7 & _).
  split; [exact Hwf|]. split; [exact Hcl|]. split; [exact Hnc|].
  split; [etransitivity; [apply H1 | vm_compute; reflexivity]|].
  split; [etransitivity; [apply H2 | vm_compute; reflexivity]|].
  split; [etransitivity; [apply H3 | vm_compute; reflexivity]|].
  split; [etransitivity; [apply H6 | vm_compute; reflexivity]|].
  etransitivity; [apply H7 | vm_compute; reflexivity].
Defined.

(** ** The characters of a trial line *)

Lemma all_chars_impl (p q : ascii -> bool) (s : string) :
  (forall c, p c = true -> q c = true) ->
  all_chars p s = true -> all_chars q s = true.
Proof.
  intros Hpq. induction s as [|c t IH]; [reflexivity|]. cbn [all_chars].
  intros [Hc Ht]%andb_true_iff. now rewrite (Hpq c Hc), IH.
Qed.

Lemma all_chars_prefix ok (p s : string) :
  all_chars ok s = true -> String.prefix p s = true -> all_chars ok p = true.
Proof.
  revert s. induction p as [|a p IH]; intros s Hs Hp; [reflexivity|].
  destruct s as [|b s]; [discriminate Hp|]. cbn [String.prefix] in Hp.
  cbn [all_chars] in Hs |- *. apply andb_true_iff in Hs as [Hb Hs].
  destruct (ascii_dec a b) as [->|]; [|discriminate Hp].
  now rewrite Hb, (IH s).
Qed.

Lemma all_chars_contains ok (p s : string) :
  all_chars ok s = true -> contains p s = true -> all_chars ok p = true.
Proof.
  induction s as [|c t IH]; cbn [contains]; intros Hs Hc.
  - rewrite orb_false_r in Hc. now apply (all_chars_prefix ok p "").
  - apply orb_true_iff in Hc as [Hc|Hc].
    + now apply (all_chars_prefix ok p (String c t)).
    + cbn [all_chars] in Hs. apply andb_true_iff in Hs as [_ Hs]. now apply IH.
Qed.

Lemma split_nonempty sep s : split sep s <> [].
Proof.
  destruct s as [|c t]; [discriminate|]. cbn [split].
  destruct (Ascii.eqb c sep); [discriminate|]. now destruct (split sep t).
Qed.

(** A string is made of its fields and of separators. *)
Lemma all_chars_split ok sep (s : string) :
  ok sep = true -> Forall (fun p => all_chars ok p = true) (split sep s) ->
  all_chars ok s = true.
Proof.
  intros Hsep. induction s as [|c t IH]; [reflexivity|].
  cbn [split all_chars]. destruct (Ascii.eqb_spec c sep) as [->|Hne].
  - intros H. inversion H; subst. now rewrite Hsep, IH.
  - destruct (split sep t) as [|h r] eqn:E; [now destruct (split_nonempty sep t)|].
    intros H. inversion H as [|? ? Hh Hr]; subst. cbn [all_chars] in Hh.
    apply andb_true_iff in Hh as [-> Hh]. apply IH. now constructor.
Qed.

Lemma all_chars_lstrip ok sp (s : string) :
  (forall c, sp c = true -> ok c = true) ->
  all_chars ok (lstrip_by sp s) = true -> all_chars ok s = true.
Proof.
  intros Hsp. induction s as [|c t IH]; [reflexivity|]. cbn [lstrip_by].
  destruct (sp c) eqn:E; [|trivial].
  intros H. cbn [all_chars]. now rewrite (Hsp c E), IH.
Qed.

Lemma all_chars_rstrip ok sp (s : string) :
  (forall c, sp c = true -> ok c = true) ->
  all_chars ok (rstrip_by sp s) = true -> all_chars ok s = true.
Proof.
  intros Hsp. induction s as [|c t IH]; [reflexivity|]. cbn [rstrip_by].
  destruct (sp c) eqn:E; cbn [andb].
  - destruct (rstrip_by sp t) as [|d u] eqn:Er; cbn [is_empty all_chars].
    + intros _. now rewrite (Hsp c E), IH.
    + intros [Hc Hu]%andb_true_iff. rewrite Hc. apply IH. exact Hu.
  - cbn [all_chars]. intros [Hc Hu]%andb_true_iff. now rewrite Hc, IH.
Qed.

Lemma all_chars_strip ok sp (s : string) :
  (forall c, sp c = true -> ok c = true) ->
  all_chars ok (strip_by sp s) = true -> all_chars ok s = true.
Proof.
  intros Hsp H. apply (all_chars_lstrip ok sp); [assumption|].
  now apply (all_chars_rstrip ok sp).
Qed.

Lemma all_chars_drop_underscores ok (s : string) :
  ok "_"%char = true -> all_chars ok (drop_underscores s) = true ->
  all_chars ok s = true.
Proof.
  intros Hu. induction s as [|c t IH]; [reflexivity|]. cbn [drop_underscores].
  destruct (Ascii.eqb_spec c "_") as [->|_]; cbn [all_chars].
  - intros H. now rewrite Hu, IH.
  - intros [Hc Ht]%andb_true_iff. now rewrite Hc, IH.
Qed.

Lemma all_chars_scan_digits ok (s : string) : forall acc n v n' rest,
  (forall c, is_digit c = true -> ok c = true) ->
  scan_digits acc n s = (v, n', rest) ->
  all_chars ok rest = true -> all_chars ok s = true.
Proof.
  induction s as [|c t IH]; intros acc n v n' rest Hd; cbn [scan_digits].
  - now intros [= _ _ <-].
  - destruct (is_digit c) eqn:E.
    + intros Hs Hr. cbn [all_chars]. rewrite (Hd c E). cbn [andb]. eauto.
    + now intros [= _ _ <-].
Qed.

Lemma all_chars_scan_sign ok (s : string) neg rest :
  ok "-"%char = true -> ok "+"%char = true ->
  scan_sign s = (neg, rest) ->
  all_chars ok rest = true -> all_chars ok s = true.
Proof.
  intros Hm Hp. destruct s as [|c t]; cbn [scan_sign]; [now intros [= _ <-]|].
  destruct (Ascii.eqb_spec c "-") as [->|_]; [intros [= _ <-] H; cbn; now rewrite Hm|].
  destruct (Ascii.eqb_spec c "+") as [->|_]; [intros [= _ <-] H; cbn; now rewrite Hp|].
  now intros [= _ <-].
Qed.

Lemma numeric_digit c : is_digit c = true -> numeric_char c = true.
Proof. unfold numeric_char. now intros ->. Qed.

Lemma numeric_space c : is_num_space c = true -> numeric_char c = true.
Proof. unfold numeric_char. intros ->. now rewrite orb_true_r. Qed.

Lemma numeric_letter c : occurs (lower c) "einfatyn" = true -> numeric_char c = true.
Proof. unfold numeric_char. intros ->. now rewrite orb_true_r. Qed.

Lemma all_chars_scan_exponent (s : string) ex rest :
  scan_exponent s = (ex, rest) ->
  all_chars numeric_char rest = true -> all_chars numeric_char s = true.
Proof.
  destruct s as [|c t]; cbn [scan_exponent]; [now intros [= _ <-]|].
  destruct (Ascii.eqb_spec (lower c) "e") as [He|_]; [|now intros [= _ <-]].
  destruct (scan_sign t) as [neg t1] eqn:Es.
  destruct (scan_digits 0 0 t1) as [[v k] r] eqn:Ed.
  destruct k; [now intros [= _ <-]|].
  intros [= _ <-] Hr. cbn [all_chars].
  rewrite (numeric_letter c) by (now rewrite He). cbn [andb].
  apply (all_chars_scan_sign _ _ _ _ eq_refl eq_refl Es).
  exact (all_chars_scan_digits _ _ _ _ _ _ _ numeric_digit Ed Hr).
Qed.

Lemma all_chars_scan_number (s : string) f rest :
  scan_number s = Some (f, rest) ->
  all_chars numeric_char rest = true -> all_chars numeric_char s = true.
Proof.
  unfold scan_number.
  destruct (scan_sign s) as [neg s1] eqn:Es.
  destruct (scan_digits 0 0 s1) as [[ip ni] s2] eqn:Ed.
  destruct (match s2 with
            | EmptyString => (ip, 0%nat, s2)
            | String c t => if Ascii.eqb c "." then scan_digits ip 0 t else (ip, 0%nat, s2)
            end) as [[m nf] s3] eqn:Ef.
  destruct (ni + nf)%nat; [discriminate|].
  destruct (scan_exponent s3) as [ex s4] eqn:Ee.
  intros [= _ <-] Hr.
  apply (all_chars_scan_sign _ _ _ _ eq_refl eq_refl Es).
  apply (all_chars_scan_digits _ _ _ _ _ _ _ numeric_digit Ed).
  assert (H3 : all_chars numeric_char s3 = true)
    by exact (all_chars_scan_exponent _ _ _ Ee Hr).
  destruct s2 as [|c t]; [now injection Ef as _ _ <-|].
  destruct (Ascii.eqb_spec c ".") as [->|_]; [|now injection Ef as _ _ <-].
  cbn [all_chars]. change (numeric_char ".") with true. cbn [andb].
  exact (all_chars_scan_digits _ _ _ _ _ _ _ numeric_digit Ef H3).
Qed.

Lemma all_chars_map_lower (s : string) :
  all_chars (fun c => occurs (lower c) (map_lower s)) s = true.
Proof.
  induction s as [|c t IH]; [reflexivity|]. cbn [map_lower all_chars occurs].
  rewrite Ascii.eqb_refl. cbn [orb andb].
  eapply all_chars_impl; [|exact IH]. cbn beta. intros d ->. apply orb_true_r.
Qed.

Lemma occurs_word_letter (w : string) :
  all_chars (fun c => occurs c "einfatyn") w = true ->
  forall c, occurs (lower c) w = true -> numeric_char c = true.
Proof.
  intros Hw c Hc. apply numeric_letter.
  induction w as [|d t IH]; [discriminate Hc|].
  cbn [all_chars] in Hw. apply andb_true_iff in Hw as [Hd Ht].
  cbn [occurs] in Hc. apply orb_true_iff in Hc as [Hc|Hc]; [|now apply IH].
  apply Ascii.eqb_eq in Hc. now rewrite Hc.
Qed.

Lemma all_chars_scan_inf_nan (s : string) f :
  scan_inf_nan s = Some f -> all_chars numeric_char s = true.
Proof.
  unfold scan_inf_nan. destruct (scan_sign s) as [neg s1] eqn:Es.
  intros H. apply (all_chars_scan_sign _ _ _ _ eq_refl eq_refl Es).
  assert (Hw : exists w, map_lower s1 = w /\
                 all_chars (fun c => occurs c "einfatyn") w = true).
  { destruct (String.eqb_spec (map_lower s1) "inf") as [E|_];
      [exists "inf"; now split|].
    destruct (String.eqb_spec (map_lower s1) "infinity") as [E|_];
      [exists "infinity"; now split|].
    destruct (String.eqb_spec (map_lower s1) "nan") as [E|_];
      [exists "nan"; now split|].
    discriminate H. }
  destruct Hw as (w & Ew & Hw).
  eapply all_chars_impl; [|exact (all_chars_map_lower s1)].
  cbn beta. rewrite Ew. exact (occurs_word_letter w Hw).
Qed.

(** What [float()] accepts is made of numeric characters only. *)
Lemma py_float_chars (s : string) (f : float) :
  py_float s = Ok f -> all_chars numeric_char s = true.
Proof.
  unfold py_float. intros H.
  apply (all_chars_strip _ is_num_space); [exact numeric_space|].
  destruct (underscores_ok _ _); [|discriminate H].
  apply all_chars_drop_underscores; [reflexivity|].
  destruct (scan_number _) as [[g [|c r]]|] eqn:En; try discriminate H.
  - exact (all_chars_scan_number _ _ _ En eq_refl).
  - destruct (scan_inf_nan _) as [g|] eqn:Ei; [|discriminate H].
    exact (all_chars_scan_inf_nan _ _ Ei).
Qed.

(** And so is what [int()] accepts. *)
Lemma py_int_chars (s : string) (z : Z) :
  py_int s = Ok z -> all_chars numeric_char s = true.
Proof.
  unfold py_int. intros H.
  apply (all_chars_strip _ is_num_space); [exact numeric_space|].
  destruct (scan_sign _) as [neg body] eqn:Es.
  apply (all_chars_scan_sign _ _ _ _ eq_refl eq_refl Es).
  destruct (underscores_ok _ _); [|discriminate H].
  apply all_chars_drop_underscores; [reflexivity|].
  unfold all_digits in H.
  destruct (scan_digits 0 0 _) as [[v k] r] eqn:Ed.
  destruct k; [discriminate H|]. destruct r; [|discriminate H].
  exact (all_chars_scan_digits _ _ _ _ _ _ _ numeric_digit Ed eq_refl).
Qed.

Lemma split_event_prefix (line : string) :
  startswith "EVENT," line = true -> exists rest, split "," line = "EVENT" :: rest.
Proof.
  unfold startswith. intros H.
  destruct line as [|c1 [|c2 [|c3 [|c4 [|c5 [|c6 t]]]]]];
    cbn [String.prefix] in H;
    repeat match type of H with
           | match ?d with _ => _ end = true => destruct d; [subst|discriminate H]
           end;
    try discriminate H.
  exists (split "," t). reflexivity.
Qed.

Lemma event_data_of_chars (parts : list string) (ev : list pyval) :
  event_data_of parts = Ok ev ->
  Forall (fun p => all_chars numeric_char p = true) (take 6 (tail parts)).
Proof.
  unfold event_data_of. run_m. intros H.
  destruct parts as [|p0 [|p1 [|p2 [|p3 [|p4 [|p5 [|p6 r]]]]]]];
    cbn [item lookup list_lookup] in H;
    repeat match type of H with
           | context [match ?x with Ok _ => _ | Raise _ => _ end] =>
               destruct x eqn:?; try discriminate H
           end;
    try discriminate H.
  cbn [tail take].
  repeat constructor; eauto using py_float_chars, py_int_chars.
Qed.

Lemma numeric_event_char c : numeric_char c = true -> event_char c = true.
Proof. unfold event_char. intros ->. apply orb_true_r. Qed.

(** A line that the reader takes for a trial holds nothing but commas,
    the word EVENT and numeric characters. *)
Lemma valid_event_chars (line : string) (ev : list pyval) :
  startswith "EVENT," line = true ->
  length (split "," line) = 7%nat ->
  event_data_of (split "," line) = Ok ev ->
  all_chars event_char line = true.
Proof.
  intros Hs Hl Hev. apply (all_chars_split event_char ","); [reflexivity|].
  destruct (split_event_prefix line Hs) as [rest Hr].
  pose proof (event_data_of_chars _ _ Hev) as Hc.
  rewrite Hr in Hl, Hc |- *. cbn [tail] in Hc. cbn [length] in Hl.
  rewrite take_ge in Hc by lia.
  constructor; [reflexivity|].
  eapply Forall_impl; [exact Hc|]. intros p. cbn beta.
  apply all_chars_impl. exact numeric_event_char.
Qed.

(** So it cannot hold any of the status phrases. *)
Lemma valid_event_no_phrase (line : string) (ev : list pyval) :
  startswith "EVENT," line = true ->
  length (split "," line) = 7%nat ->
  event_data_of (split "," line) = Ok ev ->
  has_phrase line = false.
Proof.
  intros Hs Hl Hev. pose proof (valid_event_chars line ev Hs Hl Hev) as Hc.
  unfold has_phrase. apply not_true_is_false. intros H.
  apply existsb_exists in H as (p & Hp & Hin).
  pose proof (all_chars_contains event_char p line Hc Hin) as Hpc.
  unfold phrases, fixation_phrases, struggle_phrases in Hp. cbn [app] in Hp.
  repeat (destruct Hp as [<-|Hp]; [discriminate Hpc|]). destruct Hp.
Qed.

Lemma trial_line_no_phrase (raw : string) (t : trial) :
  trial_of_line raw = Some t -> has_phrase (strip raw) = false.
Proof.
  intros H. destruct (trial_of_line_event raw t H) as (_ & Hs & Hl & Hev).
  exact (valid_event_no_phrase _ _ Hs Hl Hev).
Qed.

(** ** Trial lines *)

Lemma update_serial_valid_event raw st ev :
  startswith "EVENT," (strip raw) = true ->
  length (split "," (strip raw)) = 7%nat ->
  event_data_of (split "," (strip raw)) = Ok ev ->
  update_serial raw st = snd (update_table ev st).
Proof.
  intros Hs Hl Hev. unfold update_serial.
  rewrite update_serial_body_event, Hev by assumption. run_m.
  destruct (update_table ev st) as [[[]|e] st1]; [|reflexivity].
  now rewrite (status_checks_silent _ _ (valid_event_no_phrase _ _ Hs Hl Hev)).
Qed.

Lemma update_serial_wrong_count raw st :
  startswith "EVENT," (strip raw) = true ->
  length (split "," (strip raw)) <> 7%nat ->
  update_serial raw st = snd (status_checks (strip raw) st).
Proof.
  intros Hs Hl. unfold update_serial. rewrite update_serial_body_status; [reflexivity| |].
  - now destruct (strip raw).
  - rewrite Hs. cbn [andb]. now apply Nat.eqb_neq.
Qed.

Lemma update_serial_bad_field raw st :
  startswith "EVENT," (strip raw) = true ->
  length (split "," (strip raw)) = 7%nat ->
  (forall ev, event_data_of (split "," (strip raw)) <> Ok ev) ->
  update_serial raw st = st.
Proof.
  intros Hs Hl Hev. unfold update_serial.
  rewrite update_serial_body_event by assumption.
  destruct (event_data_of _) as [ev|e]; [now destruct (Hev ev)|reflexivity].
Qed.

Lemma event_data_of_fields p0 p1 p2 p3 p4 p5 p6 :
  event_data_of [p0; p1; p2; p3; p4; p5; p6] =
    (f1 ← py_float p1; n2 ← py_int p2; n3 ← py_int p3; n4 ← py_int p4;
     n5 ← py_int p5; n6 ← py_int p6;
     mret [PyFloat f1; PyInt n2; PyInt n3; PyInt n4; PyInt n5; PyInt n6]).
Proof. reflexivity. Qed.

(** C5, as the code has it.  For a line that starts with [EVENT,]:
    with seven fields of which the second is accepted by [float()] and
    the other five by [int()], what the reader does is [update_table] on
    these six values and nothing else; with another number of fields no
    trial is applied, totals and table stay as they are, but the line
    still goes through the status checks; with seven fields of which one
    is refused the line leaves the state exactly as it was. *)
Theorem event_line_decoding (raw : string) (st : gui) :
  startswith "EVENT," (strip raw) = true ->
  (forall p0 p1 p2 p3 p4 p5 p6 d a b c e r,
      split "," (strip raw) = [p0; p1; p2; p3; p4; p5; p6] ->
      py_float p1 = Ok d -> py_int p2 = Ok a -> py_int p3 = Ok b ->
      py_int p4 = Ok c -> py_int p5 = Ok e -> py_int p6 = Ok r ->
      update_serial raw st =
        snd (update_table [PyFloat d; PyInt a; PyInt b; PyInt c; PyInt e; PyInt r] st)) /\
  (length (split "," (strip raw)) <> 7%nat ->
      update_serial raw st = snd (status_checks (strip raw) st) /\
      totals (update_serial raw st) = totals st /\
      table_labels (update_serial raw st) = table_labels st) /\
  (forall p0 p1 p2 p3 p4 p5 p6,
      split "," (strip raw) = [p0; p1; p2; p3; p4; p5; p6] ->
      (exists x, py_float p1 = Raise x) \/ (exists x, py_int p2 = Raise x) \/
      (exists x, py_int p3 = Raise x) \/ (exists x, py_int p4 = Raise x) \/
      (exists x, py_int p5 = Raise x) \/ (exists x, py_int p6 = Raise x) ->
      update_serial raw st = st).
Proof.
  intros Hs. split; [|split].
  - intros p0 p1 p2 p3 p4 p5 p6 d a b c e r Hp H1 H2 H3 H4 H5 H6.
    apply update_serial_valid_event; [assumption|now rewrite Hp|].
    rewrite Hp, event_data_of_fields, H1, H2, H3, H4, H5, H6. reflexivity.
  - intros Hl. rewrite (update_serial_wrong_count raw st Hs Hl).
    split; [reflexivity|]. apply keeps_trial_data, keeps_status_checks.
  - intros p0 p1 p2 p3 p4 p5 p6 Hp Hbad.
    apply update_serial_bad_field; [assumption|now rewrite Hp|].
    intros ev. rewrite Hp, event_data_of_fields.
    destruct (py_float p1) as [d|] eqn:E1; [|discriminate].
    destruct (py_int p2) as [a|] eqn:E2; [|discriminate].
    destruct (py_int p3) as [b|] eqn:E3; [|discriminate].
    destruct (py_int p4) as [c|] eqn:E4; [|discriminate].
    destruct (py_int p5) as [e|] eqn:E5; [|discriminate].
    destruct (py_int p6) as [r|] eqn:E6; [|discriminate].
    exfalso. destruct Hbad as [[x ?]|[[x ?]|[[x ?]|[[x ?]|[[x ?]|[x ?]]]]]]; discriminate.
Qed.

Lemma event_line_decoding_witness :
  startswith "EVENT," (strip "EVENT,12.5,1,0,0,0,1") = true /\
  update_serial "EVENT,12.5,1,0,0,0,1" init_gui =
    snd (update_table [PyFloat (S754_finite false 7036874417766400 (-49));
                       PyInt 1; PyInt 0; PyInt 0; PyInt 0; PyInt 1] init_gui) /\
  update_serial "EVENT,1,2" init_gui = snd (status_checks "EVENT,1,2" init_gui) /\
  update_serial "EVENT,1.5,1,0,zero,0,1" init_gui = init_gui.
Proof.
  split; [reflexivity|]. split; [|split].
  - apply (proj1 (event_line_decoding "EVENT,12.5,1,0,0,0,1" init_gui eq_refl)
             "EVENT" "12.5" "1" "0" "0" "0" "1"); reflexivity.
  - apply (proj1 (proj2 (event_line_decoding "EVENT,1,2" init_gui eq_refl))).
    vm_compute. discriminate.
  - apply (proj2 (proj2 (event_line_decoding "EVENT,1.5,1,0,zero,0,1" init_gui eq_refl))
             "EVENT" "1.5" "1" "0" "zero" "0" "1"); [reflexivity|].
    right. right. right. left. exists ValueError. reflexivity.
Defined.

(** C5, as the claim has it, fails: a line that starts with [EVENT,] and
    has two fields is not left unrecognized when it holds a status
    phrase; here the fixation label goes from INACTIVE to ACTIVE. *)
Lemma wrong_arity_line_is_recognized :
  startswith "EVENT," (strip "EVENT,Fixation Engaged") = true /\
  length (split "," (strip "EVENT,Fixation Engaged")) = 2%nat /\
  fixation_label init_gui = mk_label "Fixation: INACTIVE" "red" /\
  fixation_label (update_serial "EVENT,Fixation Engaged" init_gui)
    = mk_label "Fixation: ACTIVE" "green".
Proof. repeat split; vm_compute; reflexivity. Qed.

(** ** Status lines *)

Lemma status_checks_labels (line : string) (st : gui) :
  fixation_label (snd (status_checks line st)) = fixation_after line (fixation_label st) /\
  struggle_label (snd (status_checks line st)) = struggle_after line (struggle_label st).
Proof.
  unfold status_checks, fixation_after, struggle_after. run_m.
  repeat match goal with
         | |- context [if contains ?p line then _ else _] => destruct (contains p line)
         end; split; reflexivity.
Qed.

Lemma no_phrase_labels (line : string) (l1 l2 : label) :
  has_phrase line = false ->
  fixation_after line l1 = l1 /\ struggle_after line l2 = l2.
Proof.
  intros H. apply has_phrase_false in H.
  unfold phrases, fixation_phrases, struggle_phrases in H. cbn [app] in H.
  repeat match goal with
         | H : Forall _ (_ :: _) |- _ => inversion H; clear H; subst
         end.
  unfold fixation_after, struggle_after.
  repeat match goal with
         | H : contains _ line = false |- _ => rewrite H; clear H
         end.
  split; reflexivity.
Qed.

Lemma dropped_line (raw : string) (st : gui) :
  dropped (strip raw) = true -> update_serial raw st = st.
Proof.
  unfold dropped. intros [[Hs Hl%Nat.eqb_eq]%andb_true_iff Hev]%andb_true_iff.
  apply update_serial_bad_field; [assumption..|].
  intros ev E. now rewrite E in Hev.
Qed.

(** C6, as the code has it: on every line that the reader does not drop
    whole (a line is dropped when it starts with [EVENT,], has seven
    fields and one of them is refused), the fixation label depends on the
    fixation phrases of the line alone and the struggle label on its
    struggle phrases alone; such a line with both [Fixation Engaged] and
    [Struggle YES] sets the one to ACTIVE and the other to YES. *)
Theorem status_groups_independent (raw : string) (st : gui) :
  dropped (strip raw) = false ->
  fixation_label (update_serial raw st) = fixation_after (strip raw) (fixation_label st) /\
  struggle_label (update_serial raw st) = struggle_after (strip raw) (struggle_label st) /\
  (contains "Fixation Engaged" (strip raw) = true ->
   contains "Struggle YES" (strip raw) = true ->
   fixation_label (update_serial raw st) = mk_label "Fixation: ACTIVE" "green" /\
   struggle_label (update_serial raw st) = mk_label "Struggle: YES" "red").
Proof.
  intros Hd.
  assert (H : fixation_label (update_serial raw st)
              = fixation_after (strip raw) (fixation_label st) /\
              struggle_label (update_serial raw st)
              = struggle_after (strip raw) (struggle_label st)).
  { destruct (is_empty (strip raw)) eqn:Ee.
    - unfold update_serial. rewrite update_serial_body_empty by assumption.
      destruct (strip raw); [split; reflexivity|discriminate Ee].
    - destruct (startswith "EVENT," (strip raw)
                && (length (split "," (strip raw)) =? 7)%nat) eqn:Hb.
      + unfold dropped in Hd. rewrite Hb in Hd. cbn [andb] in Hd.
        destruct (event_data_of (split "," (strip raw))) as [ev|] eqn:Hev;
          [|discriminate Hd].
        apply andb_true_iff in Hb as [Hs Hl%Nat.eqb_eq].
        rewrite (update_serial_valid_event raw st ev Hs Hl Hev).
        destruct (keeps_status_labels _ st (keeps_update_table ev)) as [-> ->].
        destruct (no_phrase_labels (strip raw) (fixation_label st) (struggle_label st)
                    (valid_event_no_phrase _ _ Hs Hl Hev)) as [-> ->].
        split; reflexivity.
      + unfold update_serial. rewrite update_serial_body_status by assumption.
        apply status_checks_labels. }
  destruct H as [Hf Hs]. split; [exact Hf|]. split; [exact Hs|].
  intros H1 H2. rewrite Hf, Hs. unfold fixation_after, struggle_after.
  now rewrite H1, H2.
Qed.

Lemma status_groups_independent_witness :
  dropped (strip "Fixation Engaged and Struggle YES") = false /\
  fixation_label (update_serial "Fixation Engaged and Struggle YES" init_gui)
    = mk_label "Fixation: ACTIVE" "green" /\
  struggle_label (update_serial "Fixation Engaged and Struggle YES" init_gui)
    = mk_label "Struggle: YES" "red".
Proof.
  split; [reflexivity|].
  apply (proj2 (proj2 (status_groups_independent
                         "Fixation Engaged and Struggle YES" init_gui eq_refl)));
    reflexivity.
Defined.

(** C6, as the claim has it, fails: this line holds both phrases, but it
    starts with [EVENT,] and has seven fields, [float()] refuses the
    second, and the exception takes the line past the status checks:
    neither label changes. *)
Lemma compound_event_line_is_dropped :
  dropped (strip "EVENT,Fixation Engaged,Struggle YES,0,0,0,0") = true /\
  contains "Fixation Engaged" (strip "EVENT,Fixation Engaged,Struggle YES,0,0,0,0") = true /\
  contains "Struggle YES" (strip "EVENT,Fixation Engaged,Struggle YES,0,0,0,0") = true /\
  update_serial_body "EVENT,Fixation Engaged,Struggle YES,0,0,0,0" init_gui
    = (Raise ValueError, init_gui) /\
  fixation_label (update_serial "EVENT,Fixation Engaged,Struggle YES,0,0,0,0" init_gui)
    = mk_label "Fixation: INACTIVE" "red" /\
  struggle_label (update_serial "EVENT,Fixation Engaged,Struggle YES,0,0,0,0" init_gui)
    = mk_label "Struggle: NO" "gray".
Proof. repeat split; vm_compute; reflexivity. Qed.

(** ** Reachable states *)

Lemma tracks_wf ts st : tracks ts st -> wf st /\ typed st.
Proof.
  intros (H1 & H2 & H3 & H4 & H5 & H6 & r0 & r1 & Ht & L0 & L1).
  split; [split|split].
  - unfold metrics. repeat constructor; eauto.
  - now rewrite Ht.
  - rewrite Ht. repeat constructor; auto using last_row_length.
  - rewrite H1. destruct ts; [now left|right; eexists; reflexivity].
  - repeat constructor; eauto.
Qed.

Lemma step_reachable a st : (exists ts, tracks ts st) -> exists ts, tracks ts (step a st).
Proof.
  intros [ts Htr]. destruct (is_clear a) eqn:Hc.
  - destruct a; try discriminate Hc. exists [].
    destruct (clear_button_run st (proj1 (tracks_wf ts st Htr))) as [Hwf Hcl].
    now apply cleared_tracks.
  - eexists. exact (step_tracks ts a st Htr Hc).
Qed.

(** Every state that the program reaches is well formed and typed. *)
Lemma reachable_wf (tr : list action) :
  wf (run tr init_gui) /\ typed (run tr init_gui).
Proof.
  assert (H : exists ts, tracks ts (run tr init_gui)).
  { assert (H0 : exists ts, tracks ts init_gui)
      by (exists []; apply cleared_tracks; [apply wf_init|apply cleared_init]).
    revert H0. generalize init_gui. induction tr as [|a tr IH]; intros st H0; [exact H0|].
    cbn [run fold_left]. apply IH. now apply step_reachable. }
  destruct H as [ts H]. exact (tracks_wf ts _ H).
Qed.

Lemma update_table_succeeds (t : trial) (st : gui) :
  wf st -> typed st -> exists st1, update_table (event_data t) st = (Ok tt, st1).
Proof.
  intros Hwf [Htime Hint].
  destruct (wf_table st Hwf) as (r0 & ? & ? & ? & ? & ? & ? & ? & ? & ? & ? & ? & ? & Ht).
  repeat match goal with
         | H : Forall _ (_ :: _) |- _ => inversion H; clear H; subst
         end.
  repeat match goal with
         | H : exists z, _ |- _ => destruct H
         end.
  destruct Htime as [Htime|[f Htime]]; eexists;
    (eapply update_table_run; [exact Ht|reflexivity|reflexivity|exact Htime|reflexivity|..]);
    eassumption.
Qed.

(** * Further properties *)

(** ** What each function leaves alone *)

Section FrameOf.
Context {X : Type} (view : gui -> X).
Hypothesis view_table : forall v st, view (set_table_labels v st) = view st.
Hypothesis view_totals : forall v st, view (set_totals v st) = view st.
Hypothesis view_console : forall v st, view (set_console_box v st) = view st.
Hypothesis view_fixation : forall v st, view (set_fixation_label v st) = view st.
Hypothesis view_struggle : forall v st, view (set_struggle_label v st) = view st.

Lemma frame_config_table r c t : keeps view (config_table r c t).
Proof.
  unfold config_table. repeat (apply keeps_bind; [keeps_op|intros ?]).
  apply keeps_modify. intros st. apply view_table.
Qed.

Lemma frame_totals_get k : keeps view (totals_get k).
Proof. unfold totals_get. keeps_op. Qed.

Lemma frame_totals_iadd k v : keeps view (totals_iadd k v).
Proof.
  unfold totals_iadd. apply keeps_bind; [apply frame_totals_get|intros ?].
  apply keeps_bind; [apply keeps_lift|intros ?].
  apply keeps_modify. intros st. apply view_totals.
Qed.

Lemma frame_update_table ev : keeps view (update_table ev).
Proof.
  unfold update_table.
  destruct ev as [|? [|? [|? [|? [|? [|? [|]]]]]]]; try apply keeps_raise.
  repeat first
    [ apply frame_config_table | apply frame_totals_iadd | apply frame_totals_get
    | apply keeps_lift
    | apply keeps_for_each; intros ?
    | apply keeps_bind; [|intros ?] ].
Qed.

Lemma frame_reset_table : keeps view reset_table.
Proof.
  unfold reset_table. apply keeps_bind.
  - apply keeps_for_each. intros r. apply keeps_for_each. intros c.
    apply frame_config_table.
  - intros _. apply keeps_modify. intros st. apply view_totals.
Qed.

Lemma frame_status_checks line : keeps view (status_checks line).
Proof.
  unfold status_checks.
  repeat first
    [ apply keeps_ret
    | apply keeps_add_console_log; exact view_console
    | apply keeps_modify; intros ?; first [apply view_fixation | apply view_struggle]
    | apply keeps_bind; [|intros ?]
    | match goal with
      | |- keeps _ (if ?b then _ else _) => destruct b
      end ].
Qed.

Lemma frame_update_serial_body raw : keeps view (update_serial_body raw).
Proof.
  unfold update_serial_body. destruct (is_empty (strip raw)); [apply keeps_ret|].
  apply keeps_bind; [|intros _; apply frame_status_checks].
  destruct (startswith _ _); [|apply keeps_ret].
  destruct (_ =? _)%nat; [|apply keeps_ret].
  apply keeps_bind; [apply keeps_lift|intros ev; apply frame_update_table].
Qed.
End FrameOf.

(** The reader thread only ever touches the totals, the table, the two
    status labels and the console: whatever line arrives, it writes
    nothing to the serial port and leaves the flags, the session clock,
    the timer label, the buttons, the entry boxes and the saved files as
    they are. *)
Theorem reader_leaves_operator_side (raw : string) (st : gui) :
  operator_side (update_serial raw st) = operator_side st.
Proof.
  apply (frame_update_serial_body operator_side); intros; reflexivity.
Qed.

(** A line that carries a trial is silent: it changes the totals and the
    table and nothing else, so it logs nothing to the console and leaves
    both status labels as they are. *)
Theorem trial_line_is_silent (raw : string) (t : trial) (st : gui) :
  trial_of_line raw = Some t ->
  all_but_trial_data (update_serial raw st) = all_but_trial_data st /\
  update_serial raw st = snd (update_table (event_data t) st).
Proof.
  intros H. destruct (trial_of_line_event raw t H) as (_ & Hs & Hl & Hev).
  rewrite (update_serial_valid_event raw st _ Hs Hl Hev). split; [|reflexivity].
  apply (frame_update_table all_but_trial_data); intros; reflexivity.
Qed.

Lemma trial_line_is_silent_witness :
  trial_of_line "EVENT,12.5,1,0,0,0,1"
    = Some {| t_duration := S754_finite false 7036874417766400 (-49);
              t_fix := 1; t_escape := 0; t_timeup := 0; t_struggle := 0;
              t_reward := 1 |} /\
  all_but_trial_data (update_serial "EVENT,12.5,1,0,0,0,1" init_gui)
    = all_but_trial_data init_gui.
Proof.
  split; [vm_compute; reflexivity|].
  apply (trial_line_is_silent "EVENT,12.5,1,0,0,0,1"
           {| t_duration := S754_finite false 7036874417766400 (-49);
              t_fix := 1; t_escape := 0; t_timeup := 0; t_struggle := 0;
              t_reward := 1 |} init_gui).
  vm_compute; reflexivity.
Defined.

(** ** Commands on the wire *)

Ltac keeps_any :=
  repeat first
    [ apply keeps_ret | apply keeps_lift | apply keeps_gets | apply keeps_raise
    | apply keeps_ser_write; reflexivity
    | apply keeps_add_console_log; reflexivity
    | apply keeps_cget_table
    | apply frame_reset_table; intros; reflexivity
    | apply keeps_modify; intros ?; reflexivity
    | apply keeps_try_except
    | apply keeps_for_each; intros ?
    | apply keeps_bind; [|intros ?]
    | match goal with
      | |- keeps _ (if ?b then _ else _) => destruct b
      | |- keeps _ (match ?x with _ => _ end) => destruct x
      end ].

Lemma send_value_ser entry command label k st :
  exists w, ser (snd (send_value entry command label k st)) = ser st ++ w /\
            (length w <= 1)%nat.
Proof.
  rewrite send_value_run.
  destruct (py_float (entry st)) as [val|e]; [|exists []; split; [symmetry; apply app_nil_r|cbn; lia]].
  destruct (res_bind (fmul_int val k) int_of_float) as [n|[]];
    first [ eexists [_]; split; [reflexivity|cbn; lia]
          | exists []; split; [symmetry; apply app_nil_r|cbn; lia] ].
Qed.

(** Each step appends at most one command to what was written to the
    serial port and never alters what was written before: the reader,
    typing, Save, Clear and the timer write nothing; the flush, free
    reward, habituation, spout, start, stop, emergency and level buttons
    write exactly one; a Set button writes one or none. *)
Theorem serial_writes_per_action (a : action) (st : gui) :
  exists w,
    ser (step a st) = ser st ++ w /\ (length w <= 1)%nat /\
    (writes_nothing a = true -> w = []) /\
    (writes_one a = true -> length w = 1%nat).
Proof.
  assert (Hnone : forall m : M unit,
             keeps ser m -> exists w, ser (snd (m st)) = ser st ++ w /\
               (length w <= 1)%nat /\ (true = true -> w = []) /\
               (false = true -> length w = 1%nat)).
  { intros m Hm. exists []. rewrite (Hm st), app_nil_r.
    repeat split; [cbn; lia|discriminate]. }
  assert (Hset : forall entry command lbl k,
             exists w, ser (snd (send_value entry command lbl k st)) = ser st ++ w /\
               (length w <= 1)%nat /\ (false = true -> w = []) /\
               (false = true -> length w = 1%nat)).
  { intros entry command lbl k.
    destruct (send_value_ser entry command lbl k st) as (w & Hw & Hl).
    exists w. repeat split; [assumption..|discriminate|discriminate]. }
  destruct a as [raw|e s| | | |ax| | | | | |now| |p| | |i|now];
    unfold step, callback, writes_nothing, writes_one.
  - apply (Hnone (update_serial_body raw)).
    apply frame_update_serial_body; intros; reflexivity.
  - exists []. rewrite app_nil_r. destruct e; repeat split; cbn; try lia; discriminate.
  - eexists [_]. repeat split; [cbn; lia|discriminate].
  - eexists [_]. repeat split; [cbn; lia|discriminate].
  - eexists [_]. repeat split; [cbn; lia|discriminate].
  - destruct ax; eexists [_]; repeat split; try (cbn; lia); discriminate.
  - apply Hset.
  - apply Hset.
  - apply Hset.
  - apply Hset.
  - apply Hset.
  - eexists [_]. repeat split; [cbn; lia|discriminate].
  - eexists [_]. repeat split; [cbn; lia|discriminate].
  - apply (Hnone (save_data_to_file p)). unfold save_data_to_file. keeps_any.
  - apply (Hnone clear_table). unfold clear_table. keeps_any.
  - eexists [_]. repeat split; [cbn; lia|discriminate].
  - eexists [_]. repeat split; [cbn; lia|discriminate].
  - apply (Hnone (update_session_timer now)). unfold update_session_timer. keeps_any.
Qed.

(** ** The shape of reachable states *)

Lemma cget_table_run st r c rows row x :
  table_labels st = rows -> rows !! r = Some row -> row !! c = Some x ->
  cget_table r c st = (Ok x, st).
Proof.
  intros <- Hr Hc. unfold cget_table, item. run_m. now rewrite Hr, Hc.
Qed.

Lemma save_run (p : string) (st : gui) r0 c0 c1 c2 c3 c4 c5 r2 :
  is_empty p = false ->
  table_labels st = [r0; [c0; c1; c2; c3; c4; c5]; r2] ->
  save_data_to_file p st =
    (Ok tt,
     set_console_box (console_box st ++ [[Lit ("Data saved to " +:+ p)]])
       (set_saved_files
          (saved_files st ++ [(p, [map (fun s => [Lit s]) columns;
                                   [c0; c1; c2; c3; c4; c5]])]) st)).
Proof.
  intros Hp Ht. unfold save_data_to_file. rewrite Hp.
  do 6 (erewrite bind_ok by (eapply cget_table_run; [exact Ht|reflexivity|reflexivity])).
  reflexivity.
Qed.

(** In every state the program can reach, the totals and the table keep
    their shape: the six keys [time], [fix], [escape], [timeup],
    [struggle] and [reward] are present, the table has three rows of six
    cells, the running time is the int 0 or a float and the five counts
    are ints.  No line of the rig and no click adds or removes a key or a
    cell or changes the kind of a total, so the keys and cells that
    [update_table], [reset_table] and [save_data_to_file] index are
    always there. *)
Theorem reachable_states_keep_their_shape (tr : list action) :
  Forall (fun k => is_Some (totals (run tr init_gui) !! k)) metrics /\
  (forall r c, (r < 3)%nat -> (c < 6)%nat ->
     exists row cell, table_labels (run tr init_gui) !! r = Some row /\
                      row !! c = Some cell) /\
  typed (run tr init_gui).
Proof.
  destruct (reachable_wf tr) as [Hwf Hty].
  split; [exact (wf_totals _ Hwf)|]. split; [|exact Hty].
  intros r c Hr Hc.
  destruct (lookup_lt_is_Some_2 (table_labels (run tr init_gui)) r) as [row Hrow].
  { rewrite (wf_rows _ Hwf). exact Hr. }
  pose proof (Forall_lookup_1 _ _ _ _ (wf_cols _ Hwf) Hrow) as Hlen.
  destruct (lookup_lt_is_Some_2 row c) as [cell Hcell].
  { rewrite Hlen. exact Hc. }
  eauto.
Qed.

(** ** What the table and a saved file show *)

Lemma shows_ext st st' :
  totals st' = totals st -> table_labels st' = table_labels st ->
  shows_totals st -> shows_totals st'.
Proof. unfold shows_totals. now intros -> ->. Qed.

Lemma totals_row_after t f a b c e r m :
  totals_row (totals_after t f a b c e r m) =
    Some [[Fixed1 f]; py_str (PyInt (a + t_fix t)); py_str (PyInt (b + t_escape t));
          py_str (PyInt (c + t_timeup t)); py_str (PyInt (e + t_struggle t));
          py_str (PyInt (r + t_reward t))].
Proof.
  unfold totals_row, totals_after.
  repeat (rewrite lookup_insert_eq || rewrite lookup_insert_ne by discriminate;
          cbn [mbind option_bind]).
  reflexivity.
Qed.

Lemma update_table_display ts t st :
  tracks ts st ->
  exists st', update_table (event_data t) st = (Ok tt, st') /\ shows_totals st'.
Proof.
  intros (H1 & H2 & H3 & H4 & H5 & H6 & r0 & r1 & Ht & L0 & L1).
  destruct (sum_time_snoc_float ts t) as [f Hf].
  pose proof (sum_time_snoc ts t) as Ha. rewrite Hf in Ha.
  eexists. split.
  - eapply update_table_run; eauto using last_row_length.
  - eexists. split; [apply totals_row_after|reflexivity].
Qed.

Lemma reset_table_display ts st : tracks ts st -> shows_totals (step ClearButton st).
Proof.
  intros Htr. pose proof (proj1 (tracks_wf ts st Htr)) as Hwf.
  destruct Htr as (H1 & H2 & H3 & H4 & H5 & H6 & _).
  destruct (reset_table_run st Hwf) as (r0 & H0 & Hrun).
  unfold step, callback, clear_table. rewrite (bind_ok _ _ _ _ _ Hrun).
  exists zero_row. split; [|reflexivity].
  cbn [snd add_console_log modify set_console_box set_totals set_table_labels totals].
  unfold totals_row. rewrite !lookup_fmap, H1, H2, H3, H4, H5, H6. reflexivity.
Qed.

Lemma display_step ts a st :
  tracks ts st -> shows_totals st -> shows_totals (step a st).
Proof.
  intros Htr Hsh.
  destruct a;
    try (match goal with
         | |- shows_totals (step ?a _) => destruct (step_frame a st I) as [Et El]
         end; eapply shows_ext; eassumption).
  - cbn [step]. destruct (trial_of_line raw) as [t|] eqn:Ht.
    + destruct (trial_of_line_event _ _ Ht) as (_ & Hs & Hl & Hev).
      unfold update_serial. rewrite update_serial_body_event, Hev by assumption.
      destruct (update_table_display ts t st Htr) as (st1 & Hrun & Hsh1).
      rewrite (bind_ok _ _ _ _ _ Hrun).
      destruct (status_checks_frame (strip raw) st1) as (st2 & -> & Et & El & _).
      eapply shows_ext; eassumption.
    + destruct (trial_of_line_none raw st Ht) as [->| ->]; [assumption|].
      destruct (status_checks_frame (strip raw) st) as (st2 & -> & Et & El & _).
      eapply shows_ext; eassumption.
  - exact (reset_table_display ts st Htr).
Qed.

Lemma shows_init : shows_totals init_gui.
Proof. exists zero_row. split; vm_compute; reflexivity. Qed.

Lemma run_display tr : forall st,
  (exists ts, tracks ts st) -> shows_totals st ->
  (exists ts, tracks ts (run tr st)) /\ shows_totals (run tr st).
Proof.
  induction tr as [|a tr IH]; intros st Htr Hsh; [now split|].
  cbn [run fold_left]. apply IH.
  - now apply step_reachable.
  - destruct Htr as [ts Htr]. exact (display_step ts a st Htr Hsh).
Qed.

Lemma tracks_init : tracks [] init_gui.
Proof. apply cleared_tracks; [apply wf_init|apply cleared_init]. Qed.

Lemma reachable_display (tr : list action) :
  (exists ts, tracks ts (run tr init_gui)) /\ shows_totals (run tr init_gui).
Proof. apply run_display; [exists []; apply tracks_init|apply shows_init]. Qed.

(** In every state the program can reach, the totals row of the table
    shows exactly what the totals dict holds: the running time with one
    decimal (the text 0 before the first trial and after a clear) and
    the five counts as [str] prints them.  The table and the dict never
    drift apart. *)
Theorem table_shows_the_totals (tr : list action) :
  shows_totals (run tr init_gui).
Proof. exact (proj2 (reachable_display tr)). Qed.

(** Saving in a reachable state with a chosen path stores one file: the
    header row and the totals row, which holds what the totals dict
    holds; it logs the path to the console and changes nothing else. *)
Theorem save_writes_the_totals (tr : list action) (p : string) :
  is_empty p = false ->
  exists row,
    totals_row (totals (run tr init_gui)) = Some row /\
    step (SaveButton p) (run tr init_gui) =
      set_console_box
        (console_box (run tr init_gui) ++ [[Lit ("Data saved to " +:+ p)]])
        (set_saved_files
           (saved_files (run tr init_gui)
              ++ [(p, [map (fun s => [Lit s]) columns; row])])
           (run tr init_gui)).
Proof.
  intros Hp. destruct (reachable_display tr) as [_ (row & Hrow & Hl)].
  exists row. split; [exact Hrow|].
  destruct (wf_table _ (proj1 (reachable_wf tr)))
    as (r0 & ? & ? & ? & ? & ? & ? & ? & ? & ? & ? & ? & ? & Ht).
  rewrite Ht in Hl. injection Hl as <-.
  unfold step, callback. now rewrite (save_run p _ _ _ _ _ _ _ _ _ Hp Ht).
Qed.

Lemma save_writes_the_totals_witness :
  is_empty "rat1.csv" = false /\
  exists row,
    totals_row (totals (run [SerialLine "EVENT,12.5,1,0,0,0,1"] init_gui)) = Some row /\
    step (SaveButton "rat1.csv") (run [SerialLine "EVENT,12.5,1,0,0,0,1"] init_gui) =
      set_console_box
        (console_box (run [SerialLine "EVENT,12.5,1,0,0,0,1"] init_gui)
           ++ [[Lit ("Data saved to " +:+ "rat1.csv")]])
        (set_saved_files
           (saved_files (run [SerialLine "EVENT,12.5,1,0,0,0,1"] init_gui)
              ++ [("rat1.csv", [map (fun s => [Lit s]) columns; row])])
           (run [SerialLine "EVENT,12.5,1,0,0,0,1"] init_gui)).
Proof.
  split; [reflexivity|].
  apply (save_writes_the_totals [SerialLine "EVENT,12.5,1,0,0,0,1"] "rat1.csv").
  reflexivity.
Defined.

(** ** Clearing and the order of trials *)

Lemma totals_row_ext (m m' : gmap string pyval) :
  Forall (fun k => m !! k = m' !! k) metrics -> totals_row m = totals_row m'.
Proof.
  unfold metrics. intros H.
  apply Forall_cons in H as [H1 H]. apply Forall_cons in H as [H2 H].
  apply Forall_cons in H as [H3 H]. apply Forall_cons in H as [H4 H].
  apply Forall_cons in H as [H5 H]. apply Forall_cons in H as [H6 _].
  unfold totals_row. now rewrite H1, H2, H3, H4, H5, H6.
Qed.

Lemma tracks_agree ts st st' :
  tracks ts st -> tracks ts st' ->
  Forall (fun k => totals st !! k = totals st' !! k) metrics /\
  table_labels st !! 2%nat = table_labels st' !! 2%nat.
Proof.
  intros (H1 & H2 & H3 & H4 & H5 & H6 & r0 & r1 & Ht & _)
         (G1 & G2 & G3 & G4 & G5 & G6 & q0 & q1 & Gt & _).
  split; [|now rewrite Ht, Gt].
  unfold metrics. repeat constructor; congruence.
Qed.

Lemma run_tracks_display tr ts st :
  tracks ts st -> shows_totals st -> Forall (fun a => is_clear a = false) tr ->
  tracks (ts ++ trials_of tr) (run tr st) /\ shows_totals (run tr st).
Proof.
  intros Htr Hsh Hc. split; [now apply run_tracks|].
  apply run_display; eauto.
Qed.

(** The clear button really starts the counts afresh: whatever happened
    before it, the totals and both data rows of the table after any
    further clear-free run are those the same run gives from the start
    state. *)
Theorem clear_forgets_history (before after : list action) :
  Forall (fun a => is_clear a = false) after ->
  Forall (fun k => totals (run after (step ClearButton (run before init_gui))) !! k
                   = totals (run after init_gui) !! k) metrics /\
  data_rows (run after (step ClearButton (run before init_gui)))
    = data_rows (run after init_gui).
Proof.
  intros Hc.
  destruct (reachable_display before) as [[ts0 Htr0] _].
  pose proof (proj1 (tracks_wf _ _ Htr0)) as Hwf0.
  destruct (clear_button_run _ Hwf0) as [Hwf1 Hcl1].
  pose proof (cleared_tracks _ Hwf1 Hcl1) as Htr1.
  pose proof (reset_table_display _ _ Htr0) as Hsh1.
  destruct (run_tracks_display after [] _ Htr1 Hsh1 Hc) as [Ha (ra & Hra & Hla)].
  destruct (run_tracks_display after [] _ tracks_init shows_init Hc) as [Hb (rb & Hrb & Hlb)].
  destruct (tracks_agree _ _ _ Ha Hb) as [Ht H2].
  split; [exact Ht|].
  unfold data_rows. rewrite H2, Hla, Hlb. f_equal.
  rewrite <- Hra, <- Hrb. now apply totals_row_ext.
Qed.

Lemma clear_forgets_history_witness :
  Forall (fun a => is_clear a = false) [SerialLine "EVENT,0.75,0,1,0,1,0"] /\
  data_rows (run [SerialLine "EVENT,0.75,0,1,0,1,0"]
               (step ClearButton (run [SerialLine "EVENT,12.5,1,0,0,0,1"] init_gui)))
    = data_rows (run [SerialLine "EVENT,0.75,0,1,0,1,0"] init_gui).
Proof.
  assert (H : Forall (fun a => is_clear a = false) [SerialLine "EVENT,0.75,0,1,0,1,0"])
    by (repeat constructor).
  split; [exact H|].
  exact (proj2 (clear_forgets_history [SerialLine "EVENT,12.5,1,0,0,0,1"]
                  [SerialLine "EVENT,0.75,0,1,0,1,0"] H)).
Defined.

Lemma sum_int_perm (f : trial -> Z) (l1 l2 : list trial) :
  l1 ≡ₚ l2 -> sum_int f l1 = sum_int f l2.
Proof.
  unfold sum_int. intros H. generalize 0.
  induction H as [|x l l' _ IH|x y l|l l' l'' _ IH1 _ IH2]; intros acc; cbn.
  - reflexivity.
  - apply IH.
  - f_equal. lia.
  - now rewrite IH1.
Qed.

(** The five count totals do not depend on the order in which the trials
    arrive, nor on what else happens in between: two clear-free runs from
    a cleared state whose trials are the same up to order end with the
    same counts. *)
Theorem counts_ignore_order (tr1 tr2 : list action) (st : gui) :
  wf st -> cleared st ->
  Forall (fun a => is_clear a = false) tr1 ->
  Forall (fun a => is_clear a = false) tr2 ->
  trials_of tr1 ≡ₚ trials_of tr2 ->
  Forall (fun k => totals (run tr1 st) !! k = totals (run tr2 st) !! k)
    ["fix"; "escape"; "timeup"; "struggle"; "reward"].
Proof.
  intros Hwf Hcl Hc1 Hc2 Hp.
  pose proof (cleared_tracks _ Hwf Hcl) as Htr.
  destruct (run_tracks tr1 [] st Htr Hc1) as (_ & H2 & H3 & H4 & H5 & H6 & _).
  destruct (run_tracks tr2 [] st Htr Hc2) as (_ & G2 & G3 & G4 & G5 & G6 & _).
  cbn [app] in *.
  repeat constructor;
    match goal with
    | H : ?m !! ?k = _, G : ?m' !! ?k = _ |- ?m !! ?k = ?m' !! ?k =>
        rewrite H, G; do 2 f_equal; now apply sum_int_perm
    end.
Qed.

Lemma counts_ignore_order_witness :
  Forall (fun k =>
            totals (run [SerialLine "EVENT,12.5,1,0,0,0,1"; FlushButton;
                         SerialLine "EVENT,0.75,0,1,0,1,0"] init_gui) !! k
            = totals (run [SerialLine "EVENT,0.75,0,1,0,1,0";
                           SerialLine "EVENT,12.5,1,0,0,0,1"] init_gui) !! k)
    ["fix"; "escape"; "timeup"; "struggle"; "reward"].
Proof.
  apply (counts_ignore_order
           [SerialLine "EVENT,12.5,1,0,0,0,1"; FlushButton;
            SerialLine "EVENT,0.75,0,1,0,1,0"]
           [SerialLine "EVENT,0.75,0,1,0,1,0"; SerialLine "EVENT,12.5,1,0,0,0,1"]
           init_gui wf_init cleared_init).
  - repeat constructor.
  - repeat constructor.
  - vm_compute. apply perm_swap.
Defined.

(** ** Toggles, buttons and entry boxes *)

Section StepFrame.
Context {X : Type} (view : gui -> X).
Hypothesis view_ser : forall v st, view (set_ser v st) = view st.
Hypothesis view_console : forall v st, view (set_console_box v st) = view st.
Hypothesis view_table : forall v st, view (set_table_labels v st) = view st.
Hypothesis view_totals : forall v st, view (set_totals v st) = view st.
Hypothesis view_fixation : forall v st, view (set_fixation_label v st) = view st.
Hypothesis view_struggle : forall v st, view (set_struggle_label v st) = view st.
Hypothesis view_timer : forall v st, view (set_session_timer_label v st) = view st.
Hypothesis view_saved : forall v st, view (set_saved_files v st) = view st.
Hypothesis view_session : forall t r st, view (set_session t r st) = view st.

Ltac keeps_view :=
  repeat first
    [ apply keeps_ret | apply keeps_lift | apply keeps_gets | apply keeps_raise
    | apply keeps_ser_write; exact view_ser
    | apply keeps_add_console_log; exact view_console
    | apply keeps_cget_table
    | apply frame_reset_table; assumption
    | apply keeps_modify; intros ?;
      first [ apply view_ser | apply view_console | apply view_timer
            | apply view_saved | apply view_session ]
    | apply keeps_try_except
    | apply keeps_bind; [|intros ?]
    | match goal with
      | |- keeps _ (if ?b then _ else _) => destruct b
      | |- keeps _ (match ?x with _ => _ end) => destruct x
      end ].

Lemma frame_send_value entry command lbl k :
  keeps view (send_value entry command lbl k).
Proof. unfold send_value. keeps_view. Qed.

Lemma frame_plain_step (a : action) (st : gui) :
  touches_controls a = false -> view (step a st) = view st.
Proof.
  destruct a as [raw|e s| | | |ax| | | | | |now| |p| | |i|now];
    intros H; try discriminate H; clear H; unfold step, callback.
  - apply frame_update_serial_body; assumption.
  - apply frame_send_value.
  - apply frame_send_value.
  - apply frame_send_value.
  - apply frame_send_value.
  - apply frame_send_value.
  - revert st. change (keeps view (start_session now)). unfold start_session. keeps_view.
  - revert st. change (keeps view stop_session). unfold stop_session. keeps_view.
  - revert st. change (keeps view (save_data_to_file p)).
    unfold save_data_to_file. keeps_view.
  - revert st. change (keeps view clear_table). unfold clear_table. keeps_view.
  - revert st. change (keeps view emergency_release). unfold emergency_release.
    keeps_view.
  - revert st. change (keeps view (send_level i)). unfold send_level. keeps_view.
  - revert st. change (keeps view (update_session_timer now)).
    unfold update_session_timer. keeps_view.
Qed.
End StepFrame.

(** The check boxes, the toggle buttons and the entry boxes change only
    when the operator clicks or types: a line from the rig, a Set, Start,
    Stop, Save, Clear, emergency or level button and a timer tick leave
    all of them as they are.  In particular the program never rewrites
    what was typed into a box. *)
Theorem controls_change_only_by_hand (a : action) (st : gui) :
  touches_controls a = false -> controls (step a st) = controls st.
Proof. apply (frame_plain_step controls); intros; reflexivity. Qed.

Lemma controls_change_only_by_hand_witness :
  controls (step (SerialLine "EVENT,12.5,1,0,0,0,1") init_gui) = controls init_gui.
Proof.
  apply (controls_change_only_by_hand (SerialLine "EVENT,12.5,1,0,0,0,1") init_gui).
  reflexivity.
Defined.

Lemma faces_agree_ext st st' :
  faces st' = faces st -> faces_agree st -> faces_agree st'.
Proof.
  unfold faces, spout, faces_agree. intros [= Ha Hb Hf Hk Hu Hd] [H1 H2].
  split; [now rewrite Ha, Hb|].
  intros a. specialize (H2 a). destruct a; cbn [get_btn] in *; congruence.
Qed.

Lemma faces_agree_step (a : action) (st : gui) :
  faces_agree st -> faces_agree (step a st).
Proof.
  intros H. destruct (touches_controls a) eqn:Ha.
  - destruct H as [H1 H2].
    destruct a as [raw|e s| | | |ax| | | | | |now| |p| | |i|now];
      try discriminate Ha; unfold step, callback.
    + apply (faces_agree_ext st); [destruct e; reflexivity|now split].
    + split; [cbn; now destruct (flush_active st)|].
      intros a. specialize (H2 a). now destruct a.
    + apply (faces_agree_ext st); [reflexivity|now split].
    + apply (faces_agree_ext st); [reflexivity|now split].
    + split; [destruct ax; exact H1|].
      intros b. specialize (H2 b).
      destruct ax, b; unfold spout_command, toggle_button; run_m; cbn;
        try exact H2; reflexivity.
  - apply (faces_agree_ext st); [|exact H].
    apply (frame_plain_step faces); [intros; reflexivity..|exact Ha].
Qed.

(** In every state the program can reach, each toggle button shows the
    state of its flag: the flush button reads Stop Flushing exactly while
    flushing is on, and a spout button is green exactly while it is
    pressed. *)
Theorem buttons_show_their_state (tr : list action) :
  faces_agree (run tr init_gui).
Proof.
  assert (H0 : faces_agree init_gui) by (split; [reflexivity|intros []; reflexivity]).
  revert H0. generalize init_gui.
  induction tr as [|a tr IH]; intros st H0; [exact H0|].
  cbn [run fold_left]. apply IH. now apply faces_agree_step.
Qed.

(** A spout button flips its own state, shows it and writes one command:
    the letter of its axis when it goes down and S when it goes up.  The
    four axes are independent of each other: no button releases another,
    so S is written for one axis while another may stay pressed. *)
Theorem spout_button_toggles (a : axis) (st : gui) :
  pressed (get_btn a (step (SpoutButton a) st)) = negb (pressed (get_btn a st)) /\
  btn_bg (get_btn a (step (SpoutButton a) st))
    = spout_face (negb (pressed (get_btn a st))) /\
  ser (step (SpoutButton a) st)
    = ser st ++ [if pressed (get_btn a st) then "S" else axis_letter a] /\
  forall b, b <> a -> get_btn b (step (SpoutButton a) st) = get_btn b st.
Proof.
  destruct a; unfold step, callback, spout_command, toggle_button; run_m; cbn;
    (split; [reflexivity|]);
    (split; [match goal with |- context [negb ?p] => now destruct p end|]);
    (split; [match goal with |- context [negb ?p] => now destruct p end|]);
    intros b Hb; destruct b; try reflexivity; contradiction.
Qed.

(** Clicking a toggle twice restores its flag and writes the on and off
    commands in the order of the two clicks; this holds for the flush
    button, both check boxes and the four spout buttons. *)
Theorem toggle_twice_restores (st : gui) :
  (flags (step FlushButton (step FlushButton st)) = flags st /\
   ser (step FlushButton (step FlushButton st))
     = ser st ++ (if flush_active st then ["w"; "W"] else ["W"; "w"])) /\
  (flags (step FreeRewardCheck (step FreeRewardCheck st)) = flags st /\
   ser (step FreeRewardCheck (step FreeRewardCheck st))
     = ser st ++ (if free_reward_enabled st then ["M0"; "M1"] else ["M1"; "M0"])) /\
  (flags (step HabituationCheck (step HabituationCheck st)) = flags st /\
   ser (step HabituationCheck (step HabituationCheck st))
     = ser st ++ (if habituation_enabled st then ["H0"; "H1"] else ["H1"; "H0"])) /\
  forall a,
    pressed (get_btn a (step (SpoutButton a) (step (SpoutButton a) st)))
      = pressed (get_btn a st) /\
    ser (step (SpoutButton a) (step (SpoutButton a) st))
      = ser st ++ (if pressed (get_btn a st) then ["S"; axis_letter a]
                   else [axis_letter a; "S"]).
Proof.
  unfold flags, step, callback, toggle_flush, toggle_free_reward,
    toggle_habituation.
  run_m. cbn.
  repeat split.
  - now destruct (flush_active st).
  - rewrite <- app_assoc. now destruct (flush_active st).
  - now destruct (free_reward_enabled st).
  - rewrite <- app_assoc. now destruct (free_reward_enabled st).
  - now destruct (habituation_enabled st).
  - rewrite <- app_assoc. now destruct (habituation_enabled st).
  - destruct a; unfold spout_command, toggle_button; run_m; cbn;
      apply negb_involutive.
  - destruct a; unfold spout_command, toggle_button; run_m; cbn;
      rewrite <- app_assoc;
      match goal with |- context [negb ?p] => now destruct p end.
Qed.

(** ** The session timer *)

Lemma pad2_two_chars (n : Z) : 0 <= n < 100 -> String.length (pad2 n) = 2%nat.
Proof.
  intros H.
  assert (Hall : forallb (fun k => Nat.eqb (String.length (pad2 (Z.of_nat k))) 2)
                   (seq 0 100) = true) by (vm_compute; reflexivity).
  rewrite forallb_forall in Hall. specialize (Hall (Z.to_nat n)).
  rewrite Z2Nat.id in Hall by lia. apply Nat.eqb_eq, Hall, in_seq. lia.
Qed.

(** While a session runs, a tick of the timer shows the whole seconds
    since the start split into hours, minutes and seconds: the three
    numbers add up to the elapsed seconds, minutes and seconds stay below
    sixty and are always two digits, and nothing but the label changes. *)
Theorem timer_shows_elapsed (now start : float) (elapsed : Z) (st : gui) :
  session_start_time st = Some start -> truthy (Some start) = true ->
  timer_running st = true ->
  int_of_float (fsub now start) = Ok elapsed ->
  exists h m s,
    step (TimerTick now) st =
      set_session_timer_label
        ("Session Time: " +:+ pad2 h +:+ ":" +:+ pad2 m +:+ ":" +:+ pad2 s) st /\
    elapsed = 3600 * h + 60 * m + s /\
    0 <= m < 60 /\ 0 <= s < 60 /\
    String.length (pad2 m) = 2%nat /\ String.length (pad2 s) = 2%nat /\
    (0 <= elapsed -> 0 <= h).
Proof.
  intros Hs Ht Hr He.
  exists (elapsed `div` 3600), ((elapsed `mod` 3600) `div` 60), (elapsed `mod` 60).
  assert (Hm : 0 <= (elapsed `mod` 3600) `div` 60 < 60).
  { pose proof (Z.mod_pos_bound elapsed 3600 ltac:(lia)).
    split; [apply Z.div_pos; lia|apply Z.div_lt_upper_bound; lia]. }
  assert (Hsec : 0 <= elapsed `mod` 60 < 60) by (apply Z.mod_pos_bound; lia).
  split; [|split; [|split; [exact Hm|split; [exact Hsec|split; [|split]]]]].
  - unfold step, callback, update_session_timer. run_m.
    rewrite Hs, Ht, Hr. cbn [andb]. rewrite He. reflexivity.
  - pose proof (Z.div_mod elapsed 3600 ltac:(lia)) as H1.
    pose proof (Z.div_mod (elapsed `mod` 3600) 60 ltac:(lia)) as H2.
    assert (H3 : (elapsed `mod` 3600) `mod` 60 = elapsed `mod` 60).
    { apply Z.mod_mod_divide. exists 60. reflexivity. }
    lia.
  - apply pad2_two_chars. lia.
  - apply pad2_two_chars. lia.
  - intros H. apply Z.div_pos; lia.
Qed.

Lemma timer_shows_elapsed_witness :
  exists h m s,
    step (TimerTick (S754_finite false 5195192441241600 (-40)))
         (step (StartButton (S754_finite false 8796093022208000 (-43))) init_gui) =
      set_session_timer_label
        ("Session Time: " +:+ pad2 h +:+ ":" +:+ pad2 m +:+ ":" +:+ pad2 s)
        (step (StartButton (S754_finite false 8796093022208000 (-43))) init_gui) /\
    3725 = 3600 * h + 60 * m + s /\
    0 <= m < 60 /\ 0 <= s < 60 /\
    String.length (pad2 m) = 2%nat /\ String.length (pad2 s) = 2%nat /\
    (0 <= 3725 -> 0 <= h).
Proof.
  apply (timer_shows_elapsed
           (S754_finite false 5195192441241600 (-40))
           (S754_finite false 8796093022208000 (-43)) 3725
           (step (StartButton (S754_finite false 8796093022208000 (-43))) init_gui)).
  - reflexivity.
  - reflexivity.
  - reflexivity.
  - vm_compute. reflexivity.
Defined.

(** A tick of the timer never changes anything but the timer label, it
    changes nothing at all once the session was stopped, and nothing
    before a session was ever started: the label then stays frozen at
    what it last showed. *)
Theorem timer_tick_frame (now : float) (st : gui) :
  all_but_timer_label (step (TimerTick now) st) = all_but_timer_label st /\
  step (TimerTick now) (step StopButton st) = step StopButton st /\
  (session_start_time st = None -> step (TimerTick now) st = st).
Proof.
  split; [|split].
  - unfold step, callback. revert st.
    change (keeps all_but_timer_label (update_session_timer now)).
    unfold update_session_timer. keeps_any.
  - unfold step, callback, stop_session, update_session_timer. run_m. cbn.
    destruct (session_start_time st); [|reflexivity].
    now rewrite andb_false_r.
  - intros H. unfold step, callback, update_session_timer. run_m. now rewrite H.
Qed.

(** ** Lines and their fields *)

Lemma lstrip_all_space sp (s : string) :
  all_chars sp s = true -> lstrip_by sp s = EmptyString.
Proof.
  induction s as [|c t IH]; [reflexivity|]. cbn [all_chars lstrip_by].
  intros [Hc Ht]%andb_true_iff. rewrite Hc. now apply IH.
Qed.

Lemma rstrip_all_space sp (s : string) :
  all_chars sp s = true -> rstrip_by sp s = EmptyString.
Proof.
  induction s as [|c t IH]; [reflexivity|]. cbn [all_chars rstrip_by].
  intros [Hc Ht]%andb_true_iff. now rewrite (IH Ht), Hc.
Qed.

Lemma lstrip_app_space sp (pre s : string) :
  all_chars sp pre = true -> lstrip_by sp (pre +:+ s) = lstrip_by sp s.
Proof.
  induction pre as [|c t IH]; [reflexivity|]. cbn [all_chars].
  intros [Hc Ht]%andb_true_iff. simpl. rewrite Hc. now apply IH.
Qed.

Lemma rstrip_app_space sp (s post : string) :
  all_chars sp post = true -> rstrip_by sp (s +:+ post) = rstrip_by sp s.
Proof.
  intros Hp. induction s as [|c t IH]; [now apply rstrip_all_space|].
  simpl. now rewrite IH.
Qed.

Lemma strip_app_space sp (s post : string) :
  all_chars sp post = true -> strip_by sp (s +:+ post) = strip_by sp s.
Proof.
  intros Hp. unfold strip_by. induction s as [|c t IH].
  - change (rstrip_by sp (lstrip_by sp post) = EmptyString).
    now rewrite (lstrip_all_space sp post Hp).
  - change (rstrip_by sp (if sp c then lstrip_by sp (t +:+ post)
                          else String c t +:+ post)
            = rstrip_by sp (if sp c then lstrip_by sp t else String c t)).
    destruct (sp c); [exact IH|].
    exact (rstrip_app_space sp (String c t) post Hp).
Qed.

Lemma strip_surround (pre s post : string) :
  all_chars is_space pre = true -> all_chars is_space post = true ->
  strip (pre +:+ s +:+ post) = strip s.
Proof.
  intros Hpre Hpost. unfold strip, strip_by.
  rewrite (lstrip_app_space _ _ _ Hpre).
  exact (strip_app_space is_space s post Hpost).
Qed.

(** White space around a line never matters to the reader: a line with
    any white space before and after it, such as the carriage return and
    line feed that end it, is treated exactly as the bare line, and a line
    of white space alone changes nothing. *)
Theorem reader_ignores_surrounding_space (pre raw post : string) (st : gui) :
  all_chars is_space pre = true -> all_chars is_space post = true ->
  update_serial (pre +:+ raw +:+ post) st = update_serial raw st /\
  update_serial pre st = st.
Proof.
  intros Hpre Hpost. split.
  - unfold update_serial, update_serial_body.
    now rewrite (strip_surround pre raw post Hpre Hpost).
  - unfold update_serial. rewrite update_serial_body_empty; [reflexivity|].
    unfold strip, strip_by. now rewrite (lstrip_all_space _ _ Hpre).
Qed.

Lemma reader_ignores_surrounding_space_witness :
  update_serial (" " +:+ "Struggle YES" +:+ String "013" newline) init_gui
    = update_serial "Struggle YES" init_gui /\
  update_serial " " init_gui = init_gui.
Proof.
  apply (reader_ignores_surrounding_space " " "Struggle YES" (String "013" newline)
           init_gui); reflexivity.
Defined.

Lemma split_length (sep : ascii) (s : string) :
  length (split sep s) = S (count_char sep s).
Proof.
  induction s as [|c t IH]; [reflexivity|]. cbn [split count_char].
  destruct (Ascii.eqb c sep); cbn [length]; [now rewrite IH|].
  destruct (split sep t); [discriminate IH|exact IH].
Qed.

Lemma split_join (sep : ascii) (s : string) :
  join (String sep EmptyString) (split sep s) = s.
Proof.
  induction s as [|c t IH]; [reflexivity|]. cbn [split].
  pose proof (split_nonempty sep t) as Hne.
  destruct (Ascii.eqb_spec c sep) as [->|_].
  - destruct (split sep t) as [|h r]; [contradiction|].
    change (join (String sep EmptyString) (EmptyString :: h :: r))
      with (String sep (join (String sep EmptyString) (h :: r))).
    now rewrite IH.
  - destruct (split sep t) as [|h r]; [contradiction|].
    destruct r as [|h' r]; [cbn [join] in *; now rewrite IH|].
    change (String c (join (String sep EmptyString) (h :: h' :: r)) = String c t).
    now rewrite IH.
Qed.

Lemma split_no_sep (sep : ascii) (s : string) :
  Forall (fun f => count_char sep f = 0%nat) (split sep s).
Proof.
  induction s as [|c t IH]; [repeat constructor|]. cbn [split].
  destruct (Ascii.eqb c sep) eqn:Hc; [constructor; [reflexivity|exact IH]|].
  destruct (split sep t) as [|h r]; [repeat constructor; cbn; now rewrite Hc|].
  inversion IH; subst. constructor; [|assumption].
  cbn [count_char]. now rewrite Hc.
Qed.

(** The shape of a trial line: the reader takes a line for the trial [t]
    only if, white space at both ends removed, it is the word EVENT and
    six fields joined by exactly six commas, the first field being read
    by [float()] as the duration and the other five by [int()] as the
    five counts of [t]. *)
Theorem trial_line_shape (raw : string) (t : trial) :
  trial_of_line raw = Some t ->
  exists f1 f2 f3 f4 f5 f6,
    strip raw = join "," ["EVENT"; f1; f2; f3; f4; f5; f6] /\
    count_char "," (strip raw) = 6%nat /\
    Forall (fun f => count_char "," f = 0%nat) [f1; f2; f3; f4; f5; f6] /\
    py_float f1 = Ok (t_duration t) /\
    py_int f2 = Ok (t_fix t) /\ py_int f3 = Ok (t_escape t) /\
    py_int f4 = Ok (t_timeup t) /\ py_int f5 = Ok (t_struggle t) /\
    py_int f6 = Ok (t_reward t).
Proof.
  intros H. destruct (trial_of_line_event raw t H) as (_ & Hs & Hl & Hev).
  pose proof (split_join "," (strip raw)) as Hj.
  pose proof (split_no_sep "," (strip raw)) as Hn.
  pose proof (split_length "," (strip raw)) as Hc. rewrite Hl in Hc.
  destruct (split_event_prefix _ Hs) as [rest Hr]. rewrite Hr in *.
  destruct rest as [|f1 [|f2 [|f3 [|f4 [|f5 [|f6 [|]]]]]]]; try discriminate Hl.
  exists f1, f2, f3, f4, f5, f6.
  split; [now rewrite <- Hj|]. split; [congruence|].
  split; [now inversion Hn|].
  rewrite event_data_of_fields in Hev. revert Hev. run_m.
  destruct (py_float f1); [|discriminate].
  destruct (py_int f2); [|discriminate]. destruct (py_int f3); [|discriminate].
  destruct (py_int f4); [|discriminate]. destruct (py_int f5); [|discriminate].
  destruct (py_int f6); [|discriminate].
  unfold event_data. intros [= -> -> -> -> -> ->]. repeat split; reflexivity.
Qed.

Lemma trial_line_shape_witness :
  exists f1 f2 f3 f4 f5 f6,
    strip (String "009" "EVENT,12.5,1,0,0,0,1")
      = join "," ["EVENT"; f1; f2; f3; f4; f5; f6] /\
    count_char "," (strip (String "009" "EVENT,12.5,1,0,0,0,1")) = 6%nat /\
    Forall (fun f => count_char "," f = 0%nat) [f1; f2; f3; f4; f5; f6] /\
    py_float f1 = Ok (S754_finite false 7036874417766400 (-49)) /\
    py_int f2 = Ok 1 /\ py_int f3 = Ok 0 /\
    py_int f4 = Ok 0 /\ py_int f5 = Ok 0 /\
    py_int f6 = Ok 1.
Proof.
  apply (trial_line_shape (String "009" "EVENT,12.5,1,0,0,0,1")
           {| t_duration := S754_finite false 7036874417766400 (-49);
              t_fix := 1; t_escape := 0; t_timeup := 0; t_struggle := 0;
              t_reward := 1 |}).
  vm_compute. reflexivity.
Defined.

(** ** What was written stays written *)

Section Grows.
Context {X : Type} (proj : gui -> list X).
Hypothesis proj_ser : forall b st, proj st `prefix_of` proj (set_ser (ser st ++ [b]) st).
Hypothesis proj_console :
  forall msg st, proj st `prefix_of` proj (set_console_box (console_box st ++ [msg]) st).
Hypothesis proj_saved :
  forall f st, proj st `prefix_of` proj (set_saved_files (saved_files st ++ [f]) st).
Hypothesis proj_table : forall v st, proj (set_table_labels v st) = proj st.
Hypothesis proj_totals : forall v st, proj (set_totals v st) = proj st.
Hypothesis proj_status : forall fl sl tl fb st, proj (set_status fl sl tl fb st) = proj st.
Hypothesis proj_session : forall t r st, proj (set_session t r st) = proj st.
Hypothesis proj_flags : forall fa fr ha st, proj (set_flags fa fr ha st) = proj st.
Hypothesis proj_spout : forall f b u d st, proj (set_spout f b u d st) = proj st.
Hypothesis proj_entries :
  forall th du de es re rn st, proj (set_entries th du de es re rn st) = proj st.

Lemma grows_keeps {A} (m : M A) : keeps proj m -> grows proj m.
Proof. intros H st. now rewrite (H st). Qed.

Lemma grows_modify (f : gui -> gui) :
  (forall st, proj st `prefix_of` proj (f st)) -> grows proj (modify f).
Proof. intros H st. apply H. Qed.

Lemma grows_bind {A B} (m : M A) (k : A -> M B) :
  grows proj m -> (forall a, grows proj (k a)) -> grows proj (m ≫= k).
Proof.
  intros Hm Hk st. specialize (Hm st). run_m.
  destruct (m st) as [[a|e] st1]; cbn [snd] in *; [|exact Hm].
  etransitivity; [exact Hm|apply Hk].
Qed.

Lemma grows_try_except (body handler : M unit) (E : exn -> bool) :
  grows proj body -> grows proj handler -> grows proj (try_except body E handler).
Proof.
  intros Hb Hh st. specialize (Hb st). unfold try_except.
  destruct (body st) as [[a|e] st1]; cbn [snd] in *; [exact Hb|].
  destruct (E e); cbn [snd]; [|exact Hb].
  etransitivity; [exact Hb|apply Hh].
Qed.

Ltac grows_modify_tac :=
  first [ apply proj_ser | apply proj_console | apply proj_saved
        | unfold set_flush_button, set_session_timer_label, set_fixation_label,
            set_struggle_label, set_btn;
          try match goal with
              | |- context [match ?a with Forward => _ | _ => _ end] => destruct a
              end;
          rewrite ?proj_status, ?proj_session, ?proj_flags, ?proj_spout;
          reflexivity ].

Ltac grows_op :=
  repeat match goal with
         | |- grows _ (_ ≫= _) => apply grows_bind; [|intros ?]
         | |- grows _ (try_except _ _ _) => apply grows_try_except
         | |- grows _ (if ?b then _ else _) => destruct b
         | |- grows _ (match ?x with _ => _ end) => destruct x
         | |- grows _ (modify _) => apply grows_modify; intros ?; grows_modify_tac
         | |- grows _ _ =>
             apply grows_keeps;
             first [ apply keeps_ret | apply keeps_lift | apply keeps_gets
                   | apply keeps_raise | apply keeps_cget_table ]
         end.

Lemma grows_step (a : action) (st : gui) : proj st `prefix_of` proj (step a st).
Proof.
  destruct a as [raw|e s| | | |ax| | | | | |now| |p| | |i|now]; unfold step, callback.
  - revert st. change (grows proj (update_serial_body raw)).
    unfold update_serial_body. destruct (is_empty (strip raw)); [grows_op|].
    apply grows_bind.
    + apply grows_keeps. destruct (startswith _ _); [|apply keeps_ret].
      destruct (_ =? _)%nat; [|apply keeps_ret].
      apply keeps_bind; [apply keeps_lift|intros ev].
      apply frame_update_table; assumption.
    + intros _. unfold status_checks, ser_write, add_console_log. grows_op.
  - destruct e; unfold type_entry; now rewrite proj_entries.
  - revert st. change (grows proj toggle_flush).
    unfold toggle_flush, ser_write, add_console_log. grows_op.
  - revert st. change (grows proj toggle_free_reward).
    unfold toggle_free_reward, ser_write, add_console_log. grows_op.
  - revert st. change (grows proj toggle_habituation).
    unfold toggle_habituation, ser_write, add_console_log. grows_op.
  - revert st. change (grows proj (spout_command ax)).
    destruct ax; unfold spout_command, toggle_button, ser_write, add_console_log;
      grows_op.
  - revert st. change (grows proj send_threshold).
    unfold send_threshold, send_value, ser_write, add_console_log. grows_op.
  - revert st. change (grows proj send_fix_duration).
    unfold send_fix_duration, send_value, ser_write, add_console_log. grows_op.
  - revert st. change (grows proj send_fix_delay).
    unfold send_fix_delay, send_value, ser_write, add_console_log. grows_op.
  - revert st. change (grows proj send_escape_buffer).
    unfold send_escape_buffer, send_value, ser_write, add_console_log. grows_op.
  - revert st. change (grows proj send_reward_buffer).
    unfold send_reward_buffer, send_value, ser_write, add_console_log. grows_op.
  - revert st. change (grows proj (start_session now)).
    unfold start_session, ser_write, add_console_log. grows_op.
  - revert st. change (grows proj stop_session).
    unfold stop_session, ser_write, add_console_log. grows_op.
  - revert st. change (grows proj (save_data_to_file p)).
    unfold save_data_to_file, ser_write, add_console_log. grows_op.
  - revert st. change (grows proj clear_table).
    unfold clear_table, add_console_log. apply grows_bind.
    + apply grows_keeps, frame_reset_table; assumption.
    + intros _. grows_op.
  - revert st. change (grows proj emergency_release).
    unfold emergency_release, ser_write. grows_op.
  - revert st. change (grows proj (send_level i)).
    unfold send_level, ser_write, add_console_log. grows_op.
  - revert st. change (grows proj (update_session_timer now)).
    unfold update_session_timer. grows_op.
Qed.

Lemma grows_run (tr : list action) : forall st, proj st `prefix_of` proj (run tr st).
Proof.
  induction tr as [|a tr IH]; intros st; [reflexivity|].
  cbn [run fold_left]. etransitivity; [apply grows_step|apply IH].
Qed.
End Grows.

(** Whatever happens, what was sent or logged stays: over any run the
    list of commands handed to the serial port and the list of lines the
    program put into the console only ever grow at their end; nothing
    is removed, reordered or rewritten, not even by the clear button or
    by a callback that is cut short by an exception. *)
Theorem logs_are_append_only (tr : list action) (st : gui) :
  ser st `prefix_of` ser (run tr st) /\
  console_box st `prefix_of` console_box (run tr st).
Proof.
  split.
  - apply (grows_run ser); intros; first [reflexivity | now eexists].
  - apply (grows_run console_box); intros; first [reflexivity | now eexists].
Qed.

(** * Lines that start with EVENT and the status checks *)

Lemma update_table_effect (t : trial) (st : gui) :
  wf st -> typed st ->
  exists st1,
    update_table (event_data t) st = (Ok tt, st1) /\
    table_labels st1 !! 2%nat = Some (map py_str (event_data t)) /\
    Forall (fun kf => forall a, totals st !! kf.1 = Some (PyInt a) ->
                        totals st1 !! kf.1 = Some (PyInt (a + kf.2 t)))
      count_fields.
Proof.
  intros Hwf [Htime Hint].
  destruct (wf_table st Hwf) as (r0 & ? & ? & ? & ? & ? & ? & ? & ? & ? & ? & ? & ? & Ht).
  repeat match goal with
         | H : Forall _ (_ :: _) |- _ => inversion H; clear H; subst
         end.
  repeat match goal with
         | H : exists z, _ |- _ => destruct H
         end.
  destruct Htime as [Htime|[f Htime]].
  all: eexists; split;
    [eapply update_table_run;
       [exact Ht|reflexivity|reflexivity|exact Htime|reflexivity|..]; eassumption|].
  all: split; [reflexivity|].
  all: unfold count_fields; repeat constructor; cbn [fst snd]; intros a0 Ha;
    match goal with
    | H : totals _ !! ?k = Some (PyInt _) |- _ !! ?k = _ =>
        rewrite H in Ha; injection Ha as <-
    end;
    unfold totals_after; lookup_tot.
Qed.

Lemma status_checks_reward (line : string) (st : gui) :
  contains "Reward Given" line = true ->
  exists l, console_box (snd (status_checks line st)) = l ++ [[Lit "Reward Given"]].
Proof.
  intros H. unfold status_checks. rewrite H. run_m.
  repeat match goal with
         | |- context [if contains ?p line then _ else _] => destruct (contains p line)
         end; eexists; reflexivity.
Qed.

(** C10, as amended.  For a line that starts with [EVENT,], in every
    well-formed, typed state (every reachable state is one):
    with a number of fields other than seven, the trial parsing leaves
    the line to the status checks, which treat it as any other line: the
    labels follow its phrases and [Reward Given] is logged when the line
    holds it;
    with seven fields that are all accepted, the trial is applied (last
    trial row and counts) and there is no status event, because such a
    line holds no status phrase;
    with seven fields of which one is refused, the line is dropped whole,
    whatever phrases it holds. *)
Theorem event_line_reaches_status_checks (raw : string) (st : gui) :
  wf st -> typed st ->
  startswith "EVENT," (strip raw) = true ->
  (length (split "," (strip raw)) <> 7%nat ->
     update_serial raw st = snd (status_checks (strip raw) st) /\
     fixation_label (update_serial raw st)
       = fixation_after (strip raw) (fixation_label st) /\
     struggle_label (update_serial raw st)
       = struggle_after (strip raw) (struggle_label st) /\
     (contains "Reward Given" (strip raw) = true ->
      exists l, console_box (update_serial raw st) = l ++ [[Lit "Reward Given"]])) /\
  (forall t, length (split "," (strip raw)) = 7%nat ->
     event_data_of (split "," (strip raw)) = Ok (event_data t) ->
     has_phrase (strip raw) = false /\
     console_box (update_serial raw st) = console_box st /\
     status_labels (update_serial raw st) = status_labels st /\
     table_labels (update_serial raw st) !! 2%nat = Some (map py_str (event_data t)) /\
     Forall (fun kf => forall a, totals st !! kf.1 = Some (PyInt a) ->
               totals (update_serial raw st) !! kf.1 = Some (PyInt (a + kf.2 t)))
       count_fields) /\
  (dropped (strip raw) = true -> update_serial raw st = st).
Proof.
  intros Hwf Hty Hs. split; [|split].
  - intros Hl. rewrite (update_serial_wrong_count raw st Hs Hl).
    destruct (status_checks_labels (strip raw) st) as [Hf Hg].
    split; [reflexivity|]. split; [exact Hf|]. split; [exact Hg|].
    apply status_checks_reward.
  - intros t Hl Hev. split; [exact (valid_event_no_phrase _ _ Hs Hl Hev)|].
    rewrite (update_serial_valid_event raw st _ Hs Hl Hev).
    split; [apply (frame_update_table console_box); intros; reflexivity|].
    split; [apply (frame_update_table status_labels); intros; reflexivity|].
    destruct (update_table_effect t st Hwf Hty) as (st1 & -> & Hrow & Htot).
    split; [exact Hrow|exact Htot].
  - apply dropped_line.
Qed.

Lemma event_line_reaches_status_checks_witness :
  wf init_gui /\ typed init_gui /\
  (exists l, console_box (update_serial "EVENT,Reward Given" init_gui)
             = l ++ [[Lit "Reward Given"]]) /\
  table_labels (update_serial "EVENT,12.5,1,0,0,0,1" init_gui) !! 2%nat
    = Some (map py_str
              (event_data {| t_duration := S754_finite false 7036874417766400 (-49);
                             t_fix := 1; t_escape := 0; t_timeup := 0;
                             t_struggle := 0; t_reward := 1 |})) /\
  update_serial "EVENT,Reward Given,0,0,0,0,0" init_gui = init_gui.
Proof.
  destruct (tracks_wf [] init_gui tracks_init) as [Hwf Hty].
  split; [exact Hwf|]. split; [exact Hty|]. split; [|split].
  - destruct (event_line_reaches_status_checks "EVENT,Reward Given" init_gui
                Hwf Hty eq_refl) as (H & _ & _).
    apply H; [vm_compute; discriminate|reflexivity].
  - destruct (event_line_reaches_status_checks "EVENT,12.5,1,0,0,0,1" init_gui
                Hwf Hty eq_refl) as (_ & H & _).
    apply (H {| t_duration := S754_finite false 7036874417766400 (-49);
                t_fix := 1; t_escape := 0; t_timeup := 0;
                t_struggle := 0; t_reward := 1 |}); vm_compute; reflexivity.
  - destruct (event_line_reaches_status_checks "EVENT,Reward Given,0,0,0,0,0" init_gui
                Hwf Hty eq_refl) as (_ & _ & H).
    apply H. vm_compute. reflexivity.
Defined.

(** C10, as the claim has it, fails: this line starts with [EVENT,],
    has seven fields and holds [Reward Given], yet the status matching is
    not applied to it: [float()] refuses its first field, the exception
    skips the status checks and nothing is logged. *)
Lemma reward_phrase_in_event_line_is_lost :
  startswith "EVENT," (strip "EVENT,Reward Given,0,0,0,0,0") = true /\
  length (split "," (strip "EVENT,Reward Given,0,0,0,0,0")) = 7%nat /\
  contains "Reward Given" (strip "EVENT,Reward Given,0,0,0,0,0") = true /\
  update_serial "EVENT,Reward Given,0,0,0,0,0" init_gui = init_gui.
Proof. repeat split; vm_compute; reflexivity. Qed.
